(** * Shallow embedding of the crossboarder graph nodes (graph_nodes.py,
      graph_state.py) and of the panel-discussion graph (multi-agnet.py). *)

From Stdlib Require Import String Ascii List Bool ZArith QArith Lia.
Import ListNotations.
Open Scope nat_scope.
Open Scope string_scope.
Open Scope list_scope.
Set Warnings "-register-all".

(* ------------------------------------------------------------------ *)
(** ** Python runtime fragment *)

Module Py.

(** A raised Python exception: its class name and [str(e)]. *)
Record exn := Exn { exn_cls : string; exn_msg : string }.

(** The outcome of Python code that may raise. *)
Inductive result (A : Type) : Type :=
| Ok (a : A)
| Raise (e : exn).
Arguments Ok {A} a.
Arguments Raise {A} e.

(** A Python [dict] with string keys, in insertion order. *)
Definition dict (V : Type) := list (string * V).

(** [d.get(k)] *)
Fixpoint dict_get {V} (k : string) (d : dict V) : option V :=
  match d with
  | [] => None
  | (k', v) :: d' => if String.eqb k k' then Some v else dict_get k d'
  end.

(** [d[k] = v]: an existing key keeps its position, a new key goes last. *)
Fixpoint dict_set {V} (k : string) (v : V) (d : dict V) : dict V :=
  match d with
  | [] => [(k, v)]
  | (k', v') :: d' =>
      if String.eqb k k' then (k, v) :: d' else (k', v') :: dict_set k v d'
  end.

(** A Python dict never holds a key twice. *)
Definition dict_wf {V} (d : dict V) : Prop := NoDup (map fst d).

(** [s.replace(c, "")] for a one-character pattern. *)
Fixpoint remove_char (c : ascii) (s : string) : string :=
  match s with
  | EmptyString => EmptyString
  | String a s' =>
      if Ascii.eqb a c then remove_char c s' else String a (remove_char c s')
  end.

(** A JSON value as [json.loads]/[JsonOutputParser] return it; numbers
    are kept as their source text. *)
Inductive json : Type :=
| JNull
| JBool (b : bool)
| JNum (repr : string)
| JStr (s : string)
| JArr (xs : list json)
| JObj (fields : list (string * json)).

(** Python truthiness of a parsed JSON value. *)
Definition json_truthy (v : json) : bool :=
  match v with
  | JNull => false
  | JBool b => b
  | JNum r => negb (String.eqb r "0")
  | JStr s => negb (String.eqb s "")
  | JArr xs => match xs with [] => false | _ => true end
  | JObj fs => match fs with [] => false | _ => true end
  end.

End Py.

Import Py.

(** Python [float] values as the code compares them: finite doubles by
    their exact rational value, the infinities and NaN. *)
Inductive pyfloat : Type :=
| PFin (q : Q)
| PInf
| PNInf
| PNaN.

(** [x >= y] on Python floats (IEEE: any comparison with NaN is False). *)
Definition py_ge (x y : pyfloat) : bool :=
  match x, y with
  | PNaN, _ | _, PNaN => false
  | PInf, _ => true
  | _, PInf => false
  | _, PNInf => true
  | PNInf, _ => false
  | PFin a, PFin b => Qle_bool b a
  end.

(** A fragment of [float(s)] used to evaluate concrete inputs: surrounding
    ASCII whitespace, an optional sign and a non-empty run of decimal
    digits (all exact as doubles).  [None] is a [ValueError]; strings
    outside this fragment are not used with it. *)
Definition is_py_space (c : ascii) : bool :=
  match nat_of_ascii c with
  | 9 | 10 | 11 | 12 | 13 | 32 => true
  | _ => false
  end.

Fixpoint lstrip (s : string) : string :=
  match s with
  | String c s' => if is_py_space c then lstrip s' else s
  | EmptyString => EmptyString
  end.

Definition rev_string (s : string) : string :=
  string_of_list_ascii (rev (list_ascii_of_string s)).

Definition py_strip (s : string) : string := rev_string (lstrip (rev_string (lstrip s))).

Fixpoint digits_value (acc : Z) (s : string) : option Z :=
  match s with
  | EmptyString => Some acc
  | String c s' =>
      let n := nat_of_ascii c in
      if Nat.leb 48 n && Nat.leb n 57 then digits_value (10 * acc + Z.of_nat (n - 48))%Z s'
      else None
  end.

Definition unsigned_int (s : string) : option Z :=
  match s with EmptyString => None | _ => digits_value 0 s end.

Definition py_float_int (s : string) : option pyfloat :=
  match py_strip s with
  | String "-" r => option_map (fun z => PFin (inject_Z (- z)%Z)) (unsigned_int r)
  | String "+" r => option_map (fun z => PFin (inject_Z z)) (unsigned_int r)
  | t => option_map (fun z => PFin (inject_Z z)) (unsigned_int t)
  end.

(* ------------------------------------------------------------------ *)
(** ** graph_state.py *)

(** Pydantic models whose content the nodes only pass through: they are
    kept as the parsed JSON the completion chain returned. *)
Definition ProductTags := dict json.
Definition PlatformAnalysisResult := json.
Definition InfluencerProfile := json.

Record MatchResult := mkMatchResult {
  influencerId : string;
  influencerName : string;
  match_score : string;
  match_rationale : string
}.

Record GeneratedEmail := mkGeneratedEmail {
  ge_influencerId : string;
  ge_influencerName : string;
  email_subject : string;
  email_body : string
}.

(** One entry of [influencer_data]: a dict read with [.get], so each of
    its three keys may be missing. *)
Record Influencer := mkInfluencer {
  inf_influencerId : option string;
  inf_influencerName : option string;
  inf_platforms : option (dict (list json))
}.

Record MarketingWorkFlowState := mkMarketingWorkFlowState {
  product_info : option (dict json);
  influencer_data : option (list Influencer);
  product_tags : option ProductTags;
  platform_analysis : option (dict (dict PlatformAnalysisResult));
  influencer_profiles : option (dict InfluencerProfile);
  match_results : option (list MatchResult);
  selected_influencers : option (list MatchResult);
  generated_emails : option (list GeneratedEmail);
  error_messages : list string;
  match_threshold : pyfloat
}.

(** The dict a node returns: a partial update, field by field. *)
Inductive field_update : Type :=
| Set_product_tags (v : option ProductTags)
| Set_platform_analysis (v : option (dict (dict PlatformAnalysisResult)))
| Set_influencer_profiles (v : option (dict InfluencerProfile))
| Set_match_results (v : option (list MatchResult))
| Set_selected_influencers (v : option (list MatchResult))
| Set_generated_emails (v : option (list GeneratedEmail))
| Set_error_messages (v : list string).

(** The requests sent to the completion chain ([prompt | llm | JsonOutputParser()]),
    with the prompt variables that vary between calls. *)
Inductive Call : Type :=
| CallProduct (product_data : dict json)
| CallPlatform (influencerName platform : string) (content_list : list json)
| CallProfile (influencerId influencerName : string) (details : list PlatformAnalysisResult)
| CallMatch (product : dict json) (influencers_to_match : list (string * string))
| CallEmail (product : dict json) (influencerId influencerName : string)
| CallIntent (email_subject email_body : string).

(** What a node returns: the completion calls it made, in order, and
    either its update or the exception it raised. *)
Definition node_out := (list Call * result (list field_update))%type.

(* ------------------------------------------------------------------ *)
(** ** filter_matches_node *)

Section FilterNode.

(** [float(...)]: [None] is the [ValueError] it raises. *)
Variable float_of : string -> option pyfloat.

(** [float(score_str.replace("%", ""))] *)
Definition score_value (score_str : string) : option pyfloat :=
  float_of (remove_char "%" score_str).

Definition invalid_score_msg (r : MatchResult) : string :=
  "Invalid match score format for influencer " ++ influencerId r ++ ": " ++ match_score r.

(** One iteration of the [for result_obj in match_results_list] loop. *)
Definition filter_step (threshold : pyfloat) (acc : list MatchResult * list string)
    (result_obj : MatchResult) : list MatchResult * list string :=
  let '(selected, errors) := acc in
  match score_value (match_score result_obj) with
  | Some score => if py_ge score threshold then (selected ++ [result_obj], errors)
                  else (selected, errors)
  | None => (selected, errors ++ [invalid_score_msg result_obj])
  end.

Definition filter_matches_node (state : MarketingWorkFlowState) : node_out :=
  let errors := error_messages state in
  match match_results state with
  | None | Some [] =>
      ([], Ok [Set_selected_influencers (Some []); Set_error_messages errors])
  | Some match_results_list =>
      let '(selected, errors') :=
        fold_left (filter_step (match_threshold state)) match_results_list ([], errors) in
      ([], Ok [Set_selected_influencers (Some selected); Set_error_messages errors'])
  end.

(** The keep test of the loop, and its parse-failure test. *)
Definition keeps (threshold : pyfloat) (r : MatchResult) : bool :=
  match score_value (match_score r) with
  | Some score => py_ge score threshold
  | None => false
  end.

Definition unparsable (r : MatchResult) : bool :=
  match score_value (match_score r) with Some _ => false | None => true end.

Lemma fold_filter_step threshold ml sel errs :
  fold_left (filter_step threshold) ml (sel, errs)
  = (sel ++ filter (keeps threshold) ml,
     errs ++ map invalid_score_msg (filter unparsable ml)).
Proof.
  revert sel errs; induction ml as [|r ml IH]; intros sel errs; simpl.
  - now rewrite !app_nil_r.
  - unfold keeps at 1, unparsable at 1.
    destruct (score_value (match_score r)) as [v|] eqn:Hv.
    + destruct (py_ge v threshold); rewrite IH; simpl; now rewrite <- ?app_assoc.
    + rewrite IH; simpl; now rewrite <- app_assoc.
Qed.

End FilterNode.

(** The Filter algorithm in the spec's words: strip surrounding whitespace,
    strip one trailing [%], strip whitespace again, then [float]. *)
Definition strip_trailing_pct (s : string) : string :=
  match rev_string s with
  | String "%" r => rev_string r
  | _ => s
  end.

Definition spec_score_value (float_of : string -> option pyfloat) (s : string) : option pyfloat :=
  float_of (py_strip (strip_trailing_pct (py_strip s))).

Definition spec_selected (float_of : string -> option pyfloat) (threshold : pyfloat)
    (ml : list MatchResult) : list MatchResult :=
  filter (fun r => match spec_score_value float_of (match_score r) with
                   | Some v => py_ge v threshold
                   | None => false
                   end) ml.

(* ------------------------------------------------------------------ *)
(** ** Python helpers used by the nodes' messages and dict handling *)

Fixpoint join (sep : string) (xs : list string) : string :=
  match xs with
  | [] => ""
  | [x] => x
  | x :: xs' => x ++ sep ++ join sep xs'
  end.

(** [repr] of a parsed JSON value, as an f-string renders it (string
    escapes and float reformatting are not modelled). *)
Fixpoint json_repr (v : json) : string :=
  match v with
  | JNull => "None"
  | JBool b => if b then "True" else "False"
  | JNum r => r
  | JStr s => "'" ++ s ++ "'"
  | JArr xs => "[" ++ join ", " (map json_repr xs) ++ "]"
  | JObj fs =>
      "{" ++ join ", " (map (fun '(k, x) => ("'" ++ k ++ "': " ++ json_repr x)%string) fs) ++ "}"
  end.

(** [d.copy(); d.update(e)] *)
Definition dict_update {V} (d e : dict V) : dict V :=
  fold_left (fun acc '(k, v) => dict_set k v acc) e d.

(** Python's [d.get(k, default)] for an optional dict entry. *)
Definition get_default {A} (o : option A) (default : A) : A :=
  match o with Some a => a | None => default end.

(** The fields declared by [MarketingWorkFlowState]; attribute access to
    any other name raises [AttributeError]. *)
Definition MarketingWorkFlowState_fields : list string :=
  ["product_info"; "influencer_data"; "product_tags"; "platform_analysis";
   "influencer_profiles"; "match_results"; "selected_influencers";
   "generated_emails"; "error_messages"; "match_threshold"].

Definition attribute_error (cls name : string) : exn :=
  Exn "AttributeError" ("'" ++ cls ++ "' object has no attribute '" ++ name ++ "'").

(** [state.error_message] on a [MarketingWorkFlowState].  The class has no
    such field, so the lookup raises; the [Ok] branch is never taken. *)
Definition getattr_error_message (state : MarketingWorkFlowState) : result (option string) :=
  if existsb (String.eqb "error_message") MarketingWorkFlowState_fields then Ok None
  else Raise (attribute_error "MarketingWorkFlowState" "error_message").

Definition END : string := "__end__".

(* ------------------------------------------------------------------ *)
(** ** The marketing nodes *)

Section MarketingNodes.

(** The completion chain: the parsed JSON answer to a call, or the
    exception the call or the output parser raised. *)
Variable complete : Call -> result json.

(** [analyze_product_node] as the marketing workflow runs it.  On a
    [MarketingWorkFlowState] the read of [state.error_message] raises, so
    the rest of the body is never reached; it is written out with an empty
    [current_errors]. *)
Definition analyze_product_node (state : MarketingWorkFlowState) : node_out :=
  let product_info_original := product_info state in
  match getattr_error_message state with
  | Raise e => ([], Raise e)
  | Ok _ =>
      let current_errors : list string := [] in
      match product_info_original with
      | None | Some [] =>
          ([], Ok [Set_product_tags None;
                   Set_error_messages (current_errors ++
                     ["Product analysis error: product_info is missing in state."])])
      | Some pinfo =>
          let call := CallProduct pinfo in
          match complete call with
          | Ok (JObj tags) =>
              ([call], Ok [Set_product_tags (Some tags); Set_error_messages current_errors])
          | Ok _ =>
              (* a parsed value that is not a dict fails the state's
                 validation of [product_tags] when the update is merged *)
              ([call], Raise (Exn "ValidationError" "product_tags: Input should be a valid dictionary"))
          | Raise e =>
              ([call], Ok [Set_product_tags None;
                           Set_error_messages (current_errors ++
                             [("Product analysis LLM/parsing exception: " ++ exn_msg e ++ ".")%string])])
          end
      end
  end.

(** *** analyze_influencers_platforms_node *)

Definition platform_error_msg (influencer_name platform_name : string) (e : exn) : string :=
  "Platform analysis error for " ++ influencer_name ++ " - " ++ platform_name ++ ": " ++ exn_msg e.

(** The inner loop state: calls made, [current_influencer_platform_results], [errors]. *)
Definition platform_step (influencer_name : string)
    (acc : list Call * dict PlatformAnalysisResult * list string)
    (entry : string * list json) : list Call * dict PlatformAnalysisResult * list string :=
  let '(calls, results, errors) := acc in
  let '(platform_name, content_list_dicts) := entry in
  match content_list_dicts with
  | [] => (calls, results, errors)
  | _ =>
      let call := CallPlatform influencer_name platform_name content_list_dicts in
      match complete call with
      | Ok parsed => (calls ++ [call], dict_set platform_name parsed results, errors)
      | Raise e => (calls ++ [call], results, errors ++ [platform_error_msg influencer_name platform_name e])
      end
  end.

Definition influencer_id (inf : Influencer) : string :=
  get_default (inf_influencerId inf) "UnknownId".
Definition influencer_name (inf : Influencer) : string :=
  get_default (inf_influencerName inf) "UnknownName".
Definition influencer_platforms (inf : Influencer) : dict (list json) :=
  get_default (inf_platforms inf) [].

(** The outer loop state: calls, [all_platform_analysis_results], [errors]. *)
Definition influencer_step (acc : list Call * dict (dict PlatformAnalysisResult) * list string)
    (influencer_dict : Influencer) : list Call * dict (dict PlatformAnalysisResult) * list string :=
  let '(calls, all_results, errors) := acc in
  let '(calls', current, errors') :=
    fold_left (platform_step (influencer_name influencer_dict))
      (influencer_platforms influencer_dict) (calls, [], errors) in
  (calls', dict_set (influencer_id influencer_dict) current all_results, errors').

Definition analyze_influencers_platforms_node (state : MarketingWorkFlowState) : node_out :=
  match influencer_data state with
  | None => ([], Raise (Exn "TypeError" "object of type 'NoneType' has no len()"))
  | Some influencer_data_list =>
      let '(calls, all_results, errors) :=
        fold_left influencer_step influencer_data_list ([], [], error_messages state) in
      (calls, Ok [Set_platform_analysis (Some all_results); Set_error_messages errors])
  end.

End MarketingNodes.

Section MarketingNodes2.

Variable complete : Call -> result json.

(** *** generate_influencer_profiles_node *)

(** [{inf.get("influencerId", "UnknownId"): inf.get("influencerName", "UnknownName")
      for inf in influencer_data_list}] *)
Definition id_to_name_map (influencer_data_list : list Influencer) : dict string :=
  fold_left (fun d inf => dict_set (influencer_id inf) (influencer_name inf) d)
    influencer_data_list [].

(** [influencer_id_to_name_map.get(influencer_id, f"Unknown ID: {influencer_id}")] *)
Definition profile_name (id_to_name : dict string) (influencer_id : string) : string :=
  get_default (dict_get influencer_id id_to_name) ("Unknown ID: " ++ influencer_id)%string.

Definition profile_step (id_to_name : dict string)
    (acc : list Call * dict InfluencerProfile * list string)
    (entry : string * dict PlatformAnalysisResult)
    : list Call * dict InfluencerProfile * list string :=
  let '(calls, profiles, errors) := acc in
  let '(influencer_id, details) := entry in
  let influencer_name := profile_name id_to_name influencer_id in
  match details with
  | [] => (calls, profiles,
           errors ++ [("No platform data to generate profile for " ++ influencer_name ++ ".")%string])
  | _ =>
      let call := CallProfile influencer_id influencer_name (map snd details) in
      match complete call with
      | Ok parsed => (calls ++ [call], dict_set influencer_id parsed profiles, errors)
      | Raise e => (calls ++ [call], profiles,
                    errors ++ [("Profile generation error for " ++ influencer_name ++ ": " ++ exn_msg e)%string])
      end
  end.

Definition generate_influencer_profiles_node (state : MarketingWorkFlowState) : node_out :=
  let errors := error_messages state in
  match platform_analysis state with
  | None | Some [] =>
      ([], Ok [Set_influencer_profiles (Some []);
               Set_error_messages (errors ++ ["Cannot generate profiles: No platform analysis data available."])])
  | Some platform_analysis_map =>
      match influencer_data state with
      | None => ([], Raise (Exn "TypeError" "'NoneType' object is not iterable"))
      | Some influencer_data_list =>
          let id_to_name := id_to_name_map influencer_data_list in
          let '(calls, profiles, errors') :=
            fold_left (profile_step id_to_name) platform_analysis_map ([], [], errors) in
          (calls, Ok [Set_influencer_profiles (Some profiles); Set_error_messages errors'])
      end
  end.

(** *** match_influencers_node *)

(** [MatchResult( **item_dict)]: a dict with the four fields, each a str. *)
Definition validate_match (item : json) : option MatchResult :=
  match item with
  | JObj fs =>
      match dict_get "influencerId" fs, dict_get "influencerName" fs,
            dict_get "match_score" fs, dict_get "match_rationale" fs with
      | Some (JStr i), Some (JStr n), Some (JStr s), Some (JStr r) =>
          Some (mkMatchResult i n s r)
      | _, _, _, _ => None
      end
  | _ => None
  end.

Definition invalid_item_msg (item : json) : string :=
  ("Matcher returned an item with invalid format: " ++ json_repr item)%string.

Definition match_item_step (acc : list MatchResult * list string) (item_dict : json)
    : list MatchResult * list string :=
  let '(matched, errors) := acc in
  match validate_match item_dict with
  | Some match_obj => (matched ++ [match_obj], errors)
  | None => (matched, errors ++ [invalid_item_msg item_dict])
  end.

(** The name lookup [for inf_data in state.influencer_data: ...]. *)
Definition name_from_data (influencer_data_list : list Influencer) (inf_id : string) : string :=
  match find (fun inf => match inf_influencerId inf with
                         | Some i => String.eqb i inf_id
                         | None => false end) influencer_data_list with
  | Some inf => influencer_name inf
  | None => "UnknownName"
  end.

Definition match_influencers_node (state : MarketingWorkFlowState) : node_out :=
  let errors := error_messages state in
  match product_tags state with
  | None => ([], Ok [Set_match_results (Some []);
                     Set_error_messages (errors ++ ["Cannot match: Product tags missing."])])
  | Some product_tags_obj =>
  match influencer_profiles state with
  | None | Some [] =>
      ([], Ok [Set_match_results (Some []);
               Set_error_messages (errors ++ ["Cannot match: Influencer profiles missing."])])
  | Some influencer_profiles_map =>
  match product_info state with
  | None => ([], Raise (attribute_error "NoneType" "copy"))
  | Some product_info_dict =>
  match influencer_data state with
  | None => ([], Raise (Exn "TypeError" "'NoneType' object is not iterable"))
  | Some influencer_data_list =>
      let product_input_for_prompt := dict_update product_info_dict product_tags_obj in
      let influencers_to_match :=
        map (fun '(inf_id, _) => (inf_id, name_from_data influencer_data_list inf_id))
          influencer_profiles_map in
      let call := CallMatch product_input_for_prompt influencers_to_match in
      match complete call with
      | Ok parsed =>
          match parsed with
          | JArr ((_ :: _) as items) =>
              let '(matched, errors') := fold_left match_item_step items ([], errors) in
              ([call], Ok [Set_match_results (Some matched); Set_error_messages errors'])
          | _ =>
              ([call], Ok [Set_match_results (Some []);
                           Set_error_messages (errors ++ ["Matcher did not return a valid list."])])
          end
      | Raise e =>
          ([call], Ok [Set_match_results (Some []);
                       Set_error_messages (errors ++ [("Matcher error: " ++ exn_msg e)%string])])
      end
  end end end end.

End MarketingNodes2.

Section MarketingNodes3.

Variable complete : Call -> result json.

(** *** generate_emails_node *)

Definition profile_missing_msg (influencer_name : string) : string :=
  ("Profile missing for selected influencer " ++ influencer_name ++ ".")%string.

(** One iteration of [for influencer_match_obj in selected_influencers_list]:
    calls made, [generated_emails_list], [errors]. *)
Definition email_step (product_input_for_prompt : dict json)
    (influencer_profiles_map : dict InfluencerProfile)
    (acc : list Call * list GeneratedEmail * list string) (influencer_match_obj : MatchResult)
    : list Call * list GeneratedEmail * list string :=
  let '(calls, emails, errors) := acc in
  let influencer_id := influencerId influencer_match_obj in
  let influencer_name := influencerName influencer_match_obj in
  match dict_get influencer_id influencer_profiles_map with
  | None => (calls, emails, errors ++ [profile_missing_msg influencer_name])
  | Some _ =>
      let call := CallEmail product_input_for_prompt influencer_id influencer_name in
      match complete call with
      | Ok (JObj fs) =>
          match dict_get "email_subject" fs, dict_get "email_body" fs with
          | Some (JStr subject), Some (JStr body) =>
              (calls ++ [call],
               emails ++ [mkGeneratedEmail influencer_id influencer_name subject body], errors)
          | Some _, Some _ =>
              (* [GeneratedEmail(...)] rejects a non-str field; caught below *)
              (calls ++ [call], emails,
               errors ++ [("Email generation error for " ++ influencer_name
                           ++ ": 1 validation error for GeneratedEmail")%string])
          | _, _ =>
              (calls ++ [call], emails,
               errors ++ [("Email generation failed for " ++ influencer_name ++ ".")%string])
          end
      | Ok _ =>
          (calls ++ [call], emails,
           errors ++ [("Email generation failed for " ++ influencer_name ++ ".")%string])
      | Raise e =>
          (calls ++ [call], emails,
           errors ++ [("Email generation error for " ++ influencer_name ++ ": " ++ exn_msg e)%string])
      end
  end.

Definition generate_emails_node (state : MarketingWorkFlowState) : node_out :=
  let errors := error_messages state in
  match selected_influencers state with
  | None | Some [] => ([], Ok [Set_generated_emails (Some []); Set_error_messages errors])
  | Some selected_influencers_list =>
  match product_info state with
  | None => ([], Raise (attribute_error "NoneType" "copy"))
  | Some product_info_dict =>
      let product_input_for_prompt :=
        match product_tags state with
        | Some tags => dict_update product_info_dict tags
        | None => product_info_dict
        end in
      match influencer_profiles state with
      | None => ([], Raise (attribute_error "NoneType" "get"))
      | Some influencer_profiles_map =>
          let '(calls, emails, errors') :=
            fold_left (email_step product_input_for_prompt influencer_profiles_map)
              selected_influencers_list ([], [], errors) in
          (calls, Ok [Set_generated_emails (Some emails); Set_error_messages errors'])
      end
  end end.

End MarketingNodes3.

(** *** should_generate_emails *)
Definition should_generate_emails (state : MarketingWorkFlowState) : string :=
  match selected_influencers state with
  | Some (_ :: _) => "generate_emails_node"
  | _ => END
  end.

(* ------------------------------------------------------------------ *)
(** ** The graph executor (LangGraph's [StateGraph] as the code uses it) *)

Inductive edge : Type :=
| Direct (target : string)
| Conditional (route : MarketingWorkFlowState -> string).

(** Merging a node's returned dict into the state: field-level overwrite. *)
Definition apply_field (st : MarketingWorkFlowState) (u : field_update) : MarketingWorkFlowState :=
  let '(mkMarketingWorkFlowState pi idata tags pa profs mr sel ge errs th) := st in
  match u with
  | Set_product_tags v => mkMarketingWorkFlowState pi idata v pa profs mr sel ge errs th
  | Set_platform_analysis v => mkMarketingWorkFlowState pi idata tags v profs mr sel ge errs th
  | Set_influencer_profiles v => mkMarketingWorkFlowState pi idata tags pa v mr sel ge errs th
  | Set_match_results v => mkMarketingWorkFlowState pi idata tags pa profs v sel ge errs th
  | Set_selected_influencers v => mkMarketingWorkFlowState pi idata tags pa profs mr v ge errs th
  | Set_generated_emails v => mkMarketingWorkFlowState pi idata tags pa profs mr sel v errs th
  | Set_error_messages v => mkMarketingWorkFlowState pi idata tags pa profs mr sel ge v th
  end.

Definition apply_update (st : MarketingWorkFlowState) (us : list field_update) : MarketingWorkFlowState :=
  fold_left apply_field us st.

Record graph := mkGraph {
  graph_nodes : list (string * (MarketingWorkFlowState -> node_out));
  graph_edges : list (string * edge);
  graph_entry : string
}.

Definition recursion_limit : nat := 25.

Definition recursion_error : exn :=
  Exn "GraphRecursionError" "Recursion limit of 25 reached without hitting a stop condition.".

(** [app.invoke(state)]: the names of the nodes run, in order, and the
    final state or the exception that ended the run. *)
Fixpoint run_from (g : graph) (fuel : nat) (cursor : string) (st : MarketingWorkFlowState)
    : list string * result MarketingWorkFlowState :=
  match fuel with
  | O => ([], Raise recursion_error)
  | S fuel' =>
      match dict_get cursor (graph_nodes g) with
      | None => ([], Raise (Exn "ValueError" ("Node " ++ cursor ++ " not found")%string))
      | Some node =>
          match snd (node st) with
          | Raise e => ([cursor], Raise e)
          | Ok update =>
              let st' := apply_update st update in
              let next :=
                match dict_get cursor (graph_edges g) with
                | Some (Direct t) => t
                | Some (Conditional route) => route st'
                | None => END
                end in
              if String.eqb next END then ([cursor], Ok st')
              else let '(visited, r) := run_from g fuel' next st' in (cursor :: visited, r)
          end
      end
  end.

Definition invoke (g : graph) (st : MarketingWorkFlowState) : list string * result MarketingWorkFlowState :=
  run_from g recursion_limit (graph_entry g) st.

(** [workflow_app] *)
Definition workflow_app (complete : Call -> result json) (float_of : string -> option pyfloat) : graph :=
  mkGraph
    [("analyze_product_node", analyze_product_node complete);
     ("analyze_influencers_platforms_node", analyze_influencers_platforms_node complete);
     ("generate_influencer_profiles_node", generate_influencer_profiles_node complete);
     ("match_influencers_node", match_influencers_node complete);
     ("filter_matches_node", filter_matches_node float_of);
     ("generate_emails_node", generate_emails_node complete)]
    [("analyze_product_node", Direct "analyze_influencers_platforms_node");
     ("analyze_influencers_platforms_node", Direct "generate_influencer_profiles_node");
     ("generate_influencer_profiles_node", Direct "match_influencers_node");
     ("match_influencers_node", Direct "filter_matches_node");
     ("filter_matches_node", Conditional should_generate_emails);
     ("generate_emails_node", Direct END)]
    "analyze_product_node".

(* ------------------------------------------------------------------ *)
(** ** intent_analysis_node *)

Record IntentAnalysisState := mkIntentAnalysisState {
  ia_email_subject : option string;
  ia_email_body : string;
  ia_analysis_result : option (list (string * json));
  ia_error_message : option string
}.

(** The names bound at module level in graph_nodes.py (imports, settings,
    functions, builders and apps).  [traceback] is only imported locally,
    inside the except branches of [analyze_product_node]. *)
Definition graph_nodes_globals : list string :=
  ["json"; "os"; "load_dotenv"; "Dict"; "List"; "Optional"; "Union"; "Any";
   "ChatPromptTemplate"; "JsonOutputParser"; "StateGraph"; "END"; "START";
   "AzureChatOpenAI"; "BaseModel"; "ProductAnalysisState"; "MarketingWorkFlowState";
   "IntentAnalysisState"; "PlatformContentData"; "PlatformAnalysisResult";
   "InfluencerProfile"; "ProductTags"; "MatchResult"; "GeneratedEmail";
   "social_media_analyst_Prompt"; "product_metadata_Prompt"; "influencer_analysis_Prompt";
   "influencer_match_Prompt"; "collab_email_Prompt"; "email_intent_Prompt";
   "api_key"; "api_version"; "azure_endpoint"; "deployment_name"; "llm";
   "analyze_product_node"; "analyze_influencers_platforms_node";
   "generate_influencer_profiles_node"; "match_influencers_node"; "filter_matches_node";
   "generate_emails_node"; "should_generate_emails"; "product_analysis_builder";
   "product_analysis_app"; "influcencer_analysis_builder"; "influencer_app";
   "workflow_builder"; "workflow_app"; "intent_analysis_node";
   "intent_workflow_builder"; "intent_app"].

(** The builtins the node bodies use. *)
Definition py_builtins : list string :=
  ["print"; "str"; "hasattr"; "isinstance"; "len"; "list"; "dict"; "float"; "Exception";
   "ValueError"; "TypeError"; "type"].

(** Name resolution (LEGB, without enclosing scopes): a name that is
    neither local, global nor builtin raises [NameError]. *)
Definition resolve_name (locals globals : list string) (name : string) : result unit :=
  if existsb (String.eqb name) (locals ++ globals ++ py_builtins) then Ok tt
  else Raise (Exn "NameError" ("name '" ++ name ++ "' is not defined")%string).

Definition intent_locals : list string :=
  ["state"; "subject"; "body"; "intent_prompt"; "intent_chain"; "input_dict"; "e"; "error_msg"].

Definition invalid_intent_msg (parsed : json) : string :=
  let error_msg := "Intent analysis returned invalid or incomplete format." in
  if json_truthy parsed
  then (error_msg ++ " Got: " ++ substring 0 200 (json_repr parsed))%string
  else error_msg.

(** [subject if subject else "N/A"] *)
Definition subject_or_na (subject : option string) : string :=
  match subject with
  | Some s => if String.eqb s "" then "N/A" else s
  | None => "N/A"
  end.

(** The node returns [analysis_result] and [error_message]. *)
Definition intent_analysis_node (complete : Call -> result json) (state : IntentAnalysisState)
    : list Call * result (option (list (string * json)) * option string) :=
  let subject := ia_email_subject state in
  let body := ia_email_body state in
  if String.eqb body "" then ([], Ok (None, Some "Email body is empty."))
  else
    let call := CallIntent (subject_or_na subject) body in
    match complete call with
    | Ok parsed =>
        match parsed with
        | JObj fs =>
            match dict_get "cooperation_intent" fs with
            | Some _ => ([call], Ok (Some fs, None))
            | None => ([call], Ok (None, Some (invalid_intent_msg parsed)))
            end
        | _ => ([call], Ok (None, Some (invalid_intent_msg parsed)))
        end
    | Raise e =>
        let error_msg := ("Intent analysis LLM chain exception: " ++ exn_msg e)%string in
        (* print(f"LG Node:   {error_msg}\n{traceback.format_exc()}") *)
        match resolve_name intent_locals graph_nodes_globals "traceback" with
        | Raise ne => ([call], Raise ne)
        | Ok _ => ([call], Ok (None, Some error_msg))
        end
    end.

(* ------------------------------------------------------------------ *)
(** ** multi-agnet.py: the panel-discussion graph *)

Module Panel.

Definition role_List : list string := ["成龙"; "刘亦菲"; "沈腾"; "薛之谦"].

(** [data["chatList"]]: a str until the first player turn, a list after. *)
Inductive chat : Type :=
| ChatStr (s : string)
| ChatList (l : list string).

(** The module-level [data] dict.  It is built with the key ["plyer"];
    ["player"] is absent ([None]) until [msgParser] first writes it. *)
Record panel_data := mkPanelData {
  topic : string;
  chatList : chat;
  roleDesList : string;
  plyer : string;
  player : option string;
  isEnd : bool
}.

Definition set_chatList (d : panel_data) (c : chat) : panel_data :=
  mkPanelData (topic d) c (roleDesList d) (plyer d) (player d) (isEnd d).
Definition set_player (d : panel_data) (p : string) : panel_data :=
  mkPanelData (topic d) (chatList d) (roleDesList d) (plyer d) (Some p) (isEnd d).
Definition set_isEnd (d : panel_data) (b : bool) : panel_data :=
  mkPanelData (topic d) (chatList d) (roleDesList d) (plyer d) (player d) b.

Definition key_error (k : string) : exn := Exn "KeyError" ("'" ++ k ++ "'")%string.
Definition index_error : exn := Exn "IndexError" "list index out of range".

(** The MessageGraph state: the contents of the messages so far. *)
Definition messages := list string.

Definition last_content (state : messages) : result string :=
  match rev state with m :: _ => Ok m | [] => Raise index_error end.

Section Run.

(** [random.sample(role_List, k=1)[0]] at its [n]-th call. *)
Variable pick : nat -> string.
(** The host chain's reply to the data dict it is given, and the reply of
    player chain [i] (0-based) to the chat list. *)
Variable host_reply : panel_data -> string.
Variable player_reply : nat -> chat -> string.

(** [msgParser]; [draws] counts the calls to [random.sample] so far. *)
Definition msgParser (state : messages) (d : panel_data) (draws : nat)
    : result (panel_data * nat) :=
  let appended :=
    match chatList d with
    | ChatList l =>
        match player d, last_content state with
        | None, _ => Raise (key_error "player")
        | _, Raise e => Raise e
        | Some p, Ok c => Ok (set_chatList d (ChatList (l ++ [("嘉宾(" ++ p ++ "):" ++ c)%string])))
        end
    | ChatStr _ => Ok d
    end in
  match appended with
  | Raise e => Raise e
  | Ok d' =>
      if isEnd d' then Ok (set_player d' "节目结束，不需要下一位嘉宾发言", draws)
      else Ok (set_player d' (pick draws), S draws)
  end.

(** [playMsgParser] *)
Definition playMsgParser (state : messages) (d : panel_data) : result panel_data :=
  match chatList d with
  | ChatStr _ =>
      match state with
      | m :: _ => Ok (set_chatList d (ChatList [("主持人（喵喵）" ++ m)%string]))
      | [] => Raise index_error
      end
  | ChatList l =>
      match last_content state with
      | Ok m => Ok (set_chatList d (ChatList (l ++ [("主持人（喵喵）" ++ m)%string])))
      | Raise e => Raise e
      end
  end.

Definition digit_string (n : nat) : string := String (ascii_of_nat (48 + n)) "".

(** The loop [for index in range(len(role_List))] of [choose]. *)
Fixpoint route_for_from (index : nat) (roles : list string) (p : string) : string :=
  match roles with
  | [] => "end"
  | r :: roles' => if String.eqb p r then ("play" ++ digit_string (S index))%string
                   else route_for_from (S index) roles' p
  end.

(** [choose]: the route label and the data dict it leaves behind. *)
Definition choose (state : messages) (d : panel_data) : result (string * panel_data) :=
  if isEnd d then Ok ("end", d)
  else
    let d' := if Nat.ltb 5 (length state) then set_isEnd d true else d in
    match player d' with
    | None => Raise (key_error "player")
    | Some p => Ok (route_for_from 0 role_List p, d')
    end.

Inductive pnode : Type :=
| hostNode
| playNode (i : nat).

(** [add_conditional_edges("hostNode", choose, {...})] *)
Definition host_edges (label : string) : option pnode :=
  if String.eqb label "play1" then Some (playNode 0)
  else if String.eqb label "play2" then Some (playNode 1)
  else if String.eqb label "play3" then Some (playNode 2)
  else if String.eqb label "play4" then Some (playNode 3)
  else None.

(** One [choose] call as observed: transcript length, [isEnd] before and
    after, and the returned label. *)
Record choice := mkChoice {
  ch_length : nat;
  ch_isEnd_before : bool;
  ch_isEnd_after : bool;
  ch_label : string
}.

(** A visited node, with the [choose] call that followed a host visit. *)
Inductive visit : Type :=
| VHost (c : choice)
| VPlay (i : nat).

(** [graph.invoke([])] from [node], with [fuel] steps left before the
    recursion limit; the result is the final message list and data. *)
Fixpoint run_panel (fuel : nat) (node : pnode) (state : messages) (d : panel_data) (draws : nat)
    : list visit * result (messages * panel_data) :=
  match fuel with
  | O => ([], Raise (Exn "GraphRecursionError" "Recursion limit of 25 reached without hitting a stop condition."))
  | S fuel' =>
      match node with
      | hostNode =>
          match msgParser state d draws with
          | Raise e => ([], Raise e)
          | Ok (d1, draws1) =>
              let state1 := state ++ [host_reply d1] in
              match choose state1 d1 with
              | Raise e => ([], Raise e)
              | Ok (label, d2) =>
                  let v := VHost (mkChoice (length state1) (isEnd d1) (isEnd d2) label) in
                  match host_edges label with
                  | None => ([v], Ok (state1, d2))
                  | Some next =>
                      let '(vs, r) := run_panel fuel' next state1 d2 draws1 in (v :: vs, r)
                  end
              end
          end
      | playNode i =>
          match playMsgParser state d with
          | Raise e => ([VPlay i], Raise e)
          | Ok d1 =>
              let state1 := state ++ [player_reply i (chatList d1)] in
              let '(vs, r) := run_panel fuel' hostNode state1 d1 draws in (VPlay i :: vs, r)
          end
      end
  end.

End Run.

Definition data0 (topic roleDesListStr : string) : panel_data :=
  mkPanelData topic (ChatStr "节目刚开始，暂无聊天内容") roleDesListStr "成龙" None false.

(** [graph.invoke([])] with the entry point [hostNode]. *)
Definition invoke_panel (pick : nat -> string) (host_reply : panel_data -> string)
    (player_reply : nat -> chat -> string) (topic roleDesListStr : string)
    : list visit * result (messages * panel_data) :=
  run_panel pick host_reply player_reply 25 hostNode [] (data0 topic roleDesListStr) 0.

End Panel.

(* ================================================================== *)
(** * Properties *)

(** Reading a field of a node's returned update. *)
Definition selected_of (out : node_out) : option (list MatchResult) :=
  match snd out with
  | Ok us => fold_left (fun acc u => match u with Set_selected_influencers v => v | _ => acc end) us None
  | Raise _ => None
  end.

Definition errors_of (out : node_out) : option (list string) :=
  match snd out with
  | Ok us => fold_left (fun acc u => match u with Set_error_messages v => Some v | _ => acc end) us None
  | Raise _ => None
  end.

(** The Filter node in closed form: one pass over [match_results]. *)
Lemma filter_matches_node_eq float_of st :
  filter_matches_node float_of st =
  ([], Ok [Set_selected_influencers
             (Some (filter (keeps float_of (match_threshold st)) (get_default (match_results st) [])));
           Set_error_messages
             (error_messages st ++ map (invalid_score_msg)
                (filter (unparsable float_of) (get_default (match_results st) [])))]).
Proof.
  unfold filter_matches_node.
  destruct (match_results st) as [[|r ml]|].
  - simpl; now rewrite app_nil_r.
  - rewrite fold_filter_step. reflexivity.
  - simpl; now rewrite app_nil_r.
Qed.

Lemma remove_char_absent c s :
  (forall n, String.get n s <> Some c) -> remove_char c s = s.
Proof.
  induction s as [|a s IH]; intros H; simpl; [reflexivity|].
  destruct (Ascii.eqb_spec a c) as [->|Hne].
  - exfalso; apply (H 0); reflexivity.
  - f_equal; apply IH; intros n; apply (H (S n)).
Qed.

(** ** C1 *)

(** C1 (as stated, refuted): the code does not strip only a trailing [%].
    A score ["8%8"] loses its inner [%] and is kept as 88 >= 75, while
    stripping a trailing [%] leaves ["8%8"], which [float] rejects. *)
Lemma filter_inner_pct_counterexample :
  let r := mkMatchResult "a" "A" "8%8" "fit" in
  let st := mkMarketingWorkFlowState None None None None None (Some [r]) None None []
              (PFin (inject_Z 75)) in
  selected_of (filter_matches_node py_float_int st) = Some [r] /\
  spec_selected py_float_int (PFin (inject_Z 75)) [r] = [] /\
  selected_of (filter_matches_node py_float_int st)
    <> Some (spec_selected py_float_int (PFin (inject_Z 75)) [r]).
Proof.
  vm_compute. split; [reflexivity|]. split; [reflexivity|]. discriminate.
Qed.

(** C1 (amended): for every state, [selected_influencers] is the
    subsequence of [match_results], in the same order, of the results whose
    score, with every [%] removed and converted by [float] (which itself
    ignores surrounding whitespace), is [>=] the threshold; a score equal to
    the threshold is kept. *)
Theorem filter_selected_is_stable_subsequence :
  forall (float_of : string -> option pyfloat) (st : MarketingWorkFlowState),
    selected_of (filter_matches_node float_of st)
      = Some (filter (fun r => match float_of (remove_char "%" (match_score r)) with
                               | Some score => py_ge score (match_threshold st)
                               | None => false
                               end) (get_default (match_results st) [])) /\
    (forall r, In r (filter (keeps float_of (match_threshold st)) (get_default (match_results st) [])) ->
       exists score, float_of (remove_char "%" (match_score r)) = Some score /\
                     py_ge score (match_threshold st) = true) /\
    (forall q, py_ge (PFin q) (PFin q) = true).
Proof.
  intros float_of st. rewrite filter_matches_node_eq. split; [reflexivity|]. split.
  - intros r Hr. apply filter_In in Hr as [_ Hk]. unfold keeps, score_value in Hk.
    destruct (float_of (remove_char "%" (match_score r))) as [v|]; [|discriminate].
    now exists v.
  - intros q. simpl. apply Qle_bool_iff, Qle_refl.
Qed.

(** ** C5 *)

(** C5: a score that [float] rejects drops its entry and appends exactly one
    error naming the influencer id and the raw score; every other entry is
    judged on its own score; a score without [%] is parsed as it is, so
    ["75"] parses to 75. *)
Theorem filter_unparsable_scores_one_error_each :
  forall (float_of : string -> option pyfloat) (st : MarketingWorkFlowState),
    let ml := get_default (match_results st) [] in
    errors_of (filter_matches_node float_of st)
      = Some (error_messages st ++
              map (fun r => ("Invalid match score format for influencer " ++ influencerId r
                             ++ ": " ++ match_score r)%string)
                  (filter (unparsable float_of) ml)) /\
    selected_of (filter_matches_node float_of st)
      = Some (filter (keeps float_of (match_threshold st)) ml) /\
    (forall r, unparsable float_of r = true -> keeps float_of (match_threshold st) r = false) /\
    (forall s, (forall n, String.get n s <> Some "%"%char) -> score_value float_of s = float_of s) /\
    score_value py_float_int "75" = Some (PFin (inject_Z 75)).
Proof.
  intros float_of st ml. rewrite filter_matches_node_eq.
  split; [reflexivity|]. split; [reflexivity|]. split; [|split].
  - unfold unparsable, keeps. intros r. now destruct (score_value float_of (match_score r)).
  - intros s Hs. unfold score_value. now rewrite remove_char_absent.
  - vm_compute. reflexivity.
Qed.

(** ** Python dict lemmas *)

Section DictLemmas.
Context {X V : Type}.

Lemma dict_set_fresh (k : string) (v : V) (d : dict V) :
  ~ In k (map fst d) -> dict_set k v d = d ++ [(k, v)].
Proof.
  induction d as [|[k' v'] d IH]; simpl; intros Hk; [reflexivity|].
  destruct (String.eqb_spec k k') as [->|Hne]; [exfalso; auto|].
  f_equal; apply IH; tauto.
Qed.

Lemma dict_get_set_same (k : string) (v : V) (d : dict V) :
  dict_get k (dict_set k v d) = Some v.
Proof.
  induction d as [|[k' v'] d IH]; simpl.
  - now rewrite String.eqb_refl.
  - destruct (String.eqb_spec k k') as [->|Hne]; simpl.
    + now rewrite String.eqb_refl.
    + apply String.eqb_neq in Hne. now rewrite Hne.
Qed.

Lemma dict_get_set_other (k k' : string) (v : V) (d : dict V) :
  k <> k' -> dict_get k' (dict_set k v d) = dict_get k' d.
Proof.
  intros Hne. induction d as [|[k0 v0] d IH]; simpl.
  - apply not_eq_sym, String.eqb_neq in Hne. now rewrite Hne.
  - destruct (String.eqb_spec k k0) as [->|Hne0]; simpl.
    + apply not_eq_sym, String.eqb_neq in Hne. now rewrite Hne.
    + now rewrite IH.
Qed.

Lemma dict_set_keys (k x : string) (v : V) (d : dict V) :
  In x (map fst (dict_set k v d)) <-> x = k \/ In x (map fst d).
Proof.
  induction d as [|[k' v'] d IH]; simpl; [intuition congruence|].
  destruct (String.eqb_spec k k') as [->|Hne]; simpl; [intuition congruence|].
  rewrite IH. intuition congruence.
Qed.

Lemma dict_set_nodup (k : string) (v : V) (d : dict V) :
  NoDup (map fst d) -> NoDup (map fst (dict_set k v d)).
Proof.
  induction d as [|[k' v'] d IH]; simpl; intros Hnd.
  - constructor; [intros []|constructor].
  - inversion Hnd as [|? ? Hnin Hnd']; subst.
    destruct (String.eqb_spec k k') as [->|Hne]; simpl; [now constructor|].
    constructor; [|now apply IH].
    rewrite dict_set_keys. intros [->|]; [now apply Hne|contradiction].
Qed.

Lemma dict_set_not_nil (k : string) (v : V) (d : dict V) : dict_set k v d <> [].
Proof. destruct d as [|[k' v'] d]; simpl; [discriminate|]. now destruct (String.eqb k k'). Qed.

Variable key : X -> string.
Variable val : X -> V.

(** [for x in xs: d[key(x)] = val(x)] *)
Definition dict_fold (xs : list X) (d : dict V) : dict V :=
  fold_left (fun acc x => dict_set (key x) (val x) acc) xs d.

Lemma dict_fold_keys xs d k :
  In k (map fst (dict_fold xs d)) <-> In k (map fst d) \/ In k (map key xs).
Proof.
  unfold dict_fold. revert d; induction xs as [|x xs IH]; intros d; simpl; [tauto|].
  rewrite IH, dict_set_keys. intuition congruence.
Qed.

Lemma dict_fold_nodup xs d : NoDup (map fst d) -> NoDup (map fst (dict_fold xs d)).
Proof.
  unfold dict_fold. revert d; induction xs as [|x xs IH]; intros d Hd; simpl; [assumption|].
  apply IH, dict_set_nodup, Hd.
Qed.

Lemma dict_fold_get_untouched xs d k :
  ~ In k (map key xs) -> dict_get k (dict_fold xs d) = dict_get k d.
Proof.
  unfold dict_fold. revert d; induction xs as [|x xs IH]; intros d Hk; simpl; [reflexivity|].
  simpl in Hk. rewrite IH by tauto. apply dict_get_set_other. intros E; apply Hk; auto.
Qed.

Lemma dict_fold_get_last pre x post d :
  ~ In (key x) (map key post) -> dict_get (key x) (dict_fold (pre ++ x :: post) d) = Some (val x).
Proof.
  intros Hk. unfold dict_fold. rewrite fold_left_app. simpl.
  change (dict_get (key x) (dict_fold post (dict_set (key x) (val x)
            (fold_left (fun acc y => dict_set (key y) (val y) acc) pre d))) = Some (val x)).
  rewrite dict_fold_get_untouched by assumption. apply dict_get_set_same.
Qed.

Lemma dict_fold_nil xs d : dict_fold xs d = [] <-> d = [] /\ xs = [].
Proof.
  unfold dict_fold. revert d; induction xs as [|x xs IH]; intros d; simpl; [tauto|].
  rewrite IH. split; [intros [H _]; exfalso; exact (dict_set_not_nil _ _ _ H)|].
  intros [_ H]; discriminate.
Qed.

Lemma dict_fold_fresh xs d :
  NoDup (map key xs) -> (forall k, In k (map key xs) -> ~ In k (map fst d)) ->
  dict_fold xs d = d ++ map (fun x => (key x, val x)) xs.
Proof.
  unfold dict_fold. revert d; induction xs as [|x xs IH]; intros d Hnd Hfresh; simpl.
  - now rewrite app_nil_r.
  - inversion Hnd as [|? ? Hnin Hnd']; subst.
    rewrite dict_set_fresh by (apply Hfresh; simpl; auto).
    rewrite IH; [now rewrite <- app_assoc|assumption|].
    intros k Hk. rewrite map_app, in_app_iff. simpl.
    intros [Hd|[E|[]]]; [exact (Hfresh k (or_intror Hk) Hd)|].
    subst; contradiction.
Qed.

End DictLemmas.

(** ** The PlatformAnalyzer node in closed form *)

Section PlatformClosedForm.
Variable complete : Call -> result json.

(** The calls, successes and errors of one influencer's platform loop. *)
Definition platform_calls (name : string) (plats : dict (list json)) : list Call :=
  flat_map (fun '(p, c) => match c with [] => [] | _ => [CallPlatform name p c] end) plats.

Definition platform_successes (name : string) (plats : dict (list json)) : dict json :=
  flat_map (fun '(p, c) => match c with
                           | [] => []
                           | _ => match complete (CallPlatform name p c) with
                                  | Ok r => [(p, r)]
                                  | Raise _ => []
                                  end
                           end) plats.

Definition platform_errors (name : string) (plats : dict (list json)) : list string :=
  flat_map (fun '(p, c) => match c with
                           | [] => []
                           | _ => match complete (CallPlatform name p c) with
                                  | Ok _ => []
                                  | Raise e => [platform_error_msg name p e]
                                  end
                           end) plats.

(** [current_influencer_platform_results] after the inner loop. *)
Definition influencer_results (inf : Influencer) : dict PlatformAnalysisResult :=
  dict_fold fst snd (platform_successes (influencer_name inf) (influencer_platforms inf)) [].

Lemma platform_fold_eq name plats c r e :
  fold_left (platform_step complete name) plats (c, r, e) =
  (c ++ platform_calls name plats,
   dict_fold fst snd (platform_successes name plats) r,
   e ++ platform_errors name plats).
Proof.
  revert c r e; induction plats as [|[p cl] plats IH]; intros c r e; simpl.
  - now rewrite !app_nil_r.
  - destruct cl as [|x xs]; simpl; [apply IH|].
    destruct (complete (CallPlatform name p (x :: xs))) as [v|ex]; simpl;
      rewrite IH; now rewrite <- !app_assoc.
Qed.

Lemma influencer_fold_eq data c all e :
  fold_left (influencer_step complete) data (c, all, e) =
  (c ++ flat_map (fun inf => platform_calls (influencer_name inf) (influencer_platforms inf)) data,
   dict_fold influencer_id influencer_results data all,
   e ++ flat_map (fun inf => platform_errors (influencer_name inf) (influencer_platforms inf)) data).
Proof.
  revert c all e; induction data as [|inf data IH]; intros c all e; simpl.
  - now rewrite !app_nil_r.
  - rewrite platform_fold_eq. simpl. rewrite IH. now rewrite <- !app_assoc.
Qed.

Lemma analyze_influencers_platforms_node_eq st data :
  influencer_data st = Some data ->
  analyze_influencers_platforms_node complete st =
  (flat_map (fun inf => platform_calls (influencer_name inf) (influencer_platforms inf)) data,
   Ok [Set_platform_analysis (Some (dict_fold influencer_id influencer_results data []));
       Set_error_messages (error_messages st ++
         flat_map (fun inf => platform_errors (influencer_name inf) (influencer_platforms inf)) data)]).
Proof.
  intros Hd. unfold analyze_influencers_platforms_node. rewrite Hd, influencer_fold_eq. reflexivity.
Qed.

Lemma platform_successes_keys name plats k :
  In k (map fst (platform_successes name plats)) -> In k (map fst plats).
Proof.
  induction plats as [|[p cl] plats IH]; simpl; [tauto|].
  destruct cl as [|x xs]; [auto|].
  destruct (complete (CallPlatform name p (x :: xs))); simpl; intuition.
Qed.

Lemma platform_successes_nodup name plats :
  NoDup (map fst plats) -> NoDup (map fst (platform_successes name plats)).
Proof.
  induction plats as [|[p cl] plats IH]; simpl; intros Hnd; [constructor|].
  inversion Hnd as [|? ? Hnin Hnd']; subst.
  destruct cl as [|x xs]; [auto|].
  destruct (complete (CallPlatform name p (x :: xs))); simpl; [|auto].
  constructor; [|auto]. intros Hin; apply Hnin, (platform_successes_keys name plats p Hin).
Qed.

Lemma platform_successes_nil name plats :
  platform_successes name plats = [] <->
  (forall p c, In (p, c) plats -> c <> [] -> exists e, complete (CallPlatform name p c) = Raise e).
Proof.
  induction plats as [|[p cl] plats IH]; simpl.
  - split; [intros _ p c []|reflexivity].
  - destruct cl as [|x xs].
    + rewrite IH. split.
      * intros H p' c' [E|Hin] Hne; [inversion E; subst; congruence|eauto].
      * intros H p' c' Hin Hne; eauto.
    + destruct (complete (CallPlatform name p (x :: xs))) as [v|ex] eqn:Ec; simpl.
      * split; [discriminate|]. intros H.
        destruct (H p (x :: xs) (or_introl eq_refl) ltac:(discriminate)) as [e' Hr]; congruence.
      * rewrite IH. split.
        -- intros H p' c' [E|Hin] Hne; [inversion E; subst; eauto|eauto].
        -- intros H p' c' Hin Hne; eauto.
Qed.

End PlatformClosedForm.

Lemma dict_fold_ext {X V} (key : X -> string) (val1 val2 : X -> V) xs d :
  (forall x, In x xs -> val1 x = val2 x) -> dict_fold key val1 xs d = dict_fold key val2 xs d.
Proof.
  unfold dict_fold. revert d; induction xs as [|x xs IH]; intros d H; simpl; [reflexivity|].
  rewrite H by (left; reflexivity). apply IH. intros y Hy; apply H; now right.
Qed.

Lemma map_fst_snd {A B} (l : list (A * B)) : map (fun x => (fst x, snd x)) l = l.
Proof. induction l as [|[a b] l IH]; simpl; congruence. Qed.

Definition platform_analysis_of (out : node_out) : option (dict (dict PlatformAnalysisResult)) :=
  match snd out with
  | Ok us => fold_left (fun acc u => match u with Set_platform_analysis v => v | _ => acc end) us None
  | Raise _ => None
  end.

(** ** C4 *)

(** C4: for every influencer list, the node calls the completion chain once
    for each (influencer, platform) pair with a non-empty content list and
    never for an empty one; a failing call adds exactly one error for that
    pair and leaves out only that pair's entry; the other pairs and
    influencers are analysed all the same. *)
Theorem platform_analysis_failures_isolated :
  forall (complete : Call -> result json) (st : MarketingWorkFlowState) (data : list Influencer),
    influencer_data st = Some data ->
    (forall inf, In inf data -> dict_wf (influencer_platforms inf)) ->
    analyze_influencers_platforms_node complete st =
    (flat_map (fun inf => platform_calls (influencer_name inf) (influencer_platforms inf)) data,
     Ok [Set_platform_analysis
           (Some (dict_fold influencer_id
                    (fun inf => platform_successes complete (influencer_name inf)
                                  (influencer_platforms inf)) data []));
         Set_error_messages
           (error_messages st ++
            flat_map (fun inf => platform_errors complete (influencer_name inf)
                                   (influencer_platforms inf)) data)]).
Proof.
  intros complete st data Hd Hwf.
  rewrite (analyze_influencers_platforms_node_eq complete st data Hd).
  do 5 f_equal. apply dict_fold_ext. intros inf Hin.
  unfold influencer_results. rewrite dict_fold_fresh.
  - simpl. apply map_fst_snd.
  - apply platform_successes_nodup, Hwf, Hin.
  - intros k _ [].
Qed.

(** A concrete run: two influencers, the second's "bad" platform fails. *)
Definition w_complete (c : Call) : result json :=
  match c with
  | CallPlatform _ "bad" _ => Raise (Exn "OutputParserException" "Invalid json output")
  | CallPlatform _ p _ => Ok (JObj [("platform", JStr p)])
  | _ => Ok JNull
  end.

Definition w_influencers : list Influencer :=
  [mkInfluencer (Some "i1") (Some "Ann") (Some [("tiktok", [JStr "v1"]); ("xhs", [])]);
   mkInfluencer (Some "i2") (Some "Bob") (Some [("bad", [JStr "v2"]); ("youtube", [JStr "v3"])])].

Definition w_state (data : list Influencer) : MarketingWorkFlowState :=
  mkMarketingWorkFlowState (Some [("name", JStr "lamp")]) (Some data) None None None None None None
    ["earlier"] (PFin (inject_Z 75)).

Lemma platform_analysis_failures_isolated_witness :
  influencer_data (w_state w_influencers) = Some w_influencers /\
  analyze_influencers_platforms_node w_complete (w_state w_influencers) =
  ([CallPlatform "Ann" "tiktok" [JStr "v1"]; CallPlatform "Bob" "bad" [JStr "v2"];
    CallPlatform "Bob" "youtube" [JStr "v3"]],
   Ok [Set_platform_analysis
         (Some [("i1", [("tiktok", JObj [("platform", JStr "tiktok")])]);
                ("i2", [("youtube", JObj [("platform", JStr "youtube")])])]);
       Set_error_messages ["earlier"; "Platform analysis error for Bob - bad: Invalid json output"]]).
Proof.
  split; [reflexivity|].
  rewrite (platform_analysis_failures_isolated w_complete (w_state w_influencers) w_influencers).
  - vm_compute. reflexivity.
  - reflexivity.
  - intros inf [<-|[<-|[]]]; unfold dict_wf; simpl;
      repeat constructor; simpl; intuition discriminate.
Defined.

(** ** C10 *)

(** C10 (as stated, refuted): two entries with the same id give one key,
    and the earlier entry, with no platform analysed, is not mapped to an
    empty sub-map: the later entry's sub-map overwrites it. *)
Lemma platform_analysis_shared_id_counterexample :
  let data := [mkInfluencer (Some "x") (Some "A") (Some []);
               mkInfluencer (Some "x") (Some "B") (Some [("youtube", [JStr "v"])])] in
  platform_analysis_of (analyze_influencers_platforms_node w_complete (w_state data))
    = Some [("x", [("youtube", JObj [("platform", JStr "youtube")])])] /\
  length data = 2 /\
  influencer_results w_complete (hd (mkInfluencer None None None) data) = [].
Proof. vm_compute. split; [reflexivity|]. split; reflexivity. Qed.

(** C10 (amended): [platform_analysis] has exactly one key per distinct
    influencer id (a missing [influencerId] counts as ["UnknownId"]); no
    influencer is left out, whatever happened to its platforms; each key
    holds the sub-map of the last entry with that id, and that sub-map is
    empty exactly when none of the entry's platforms was analysed. *)
Theorem platform_analysis_one_key_per_distinct_id :
  forall (complete : Call -> result json) (st : MarketingWorkFlowState) (data : list Influencer),
    influencer_data st = Some data ->
    let pa := dict_fold influencer_id (influencer_results complete) data [] in
    platform_analysis_of (analyze_influencers_platforms_node complete st) = Some pa /\
    (forall inf, In inf data -> In (influencer_id inf) (map fst pa)) /\
    (forall k, In k (map fst pa) -> exists inf, In inf data /\ influencer_id inf = k) /\
    NoDup (map fst pa) /\
    (forall pre inf post, data = pre ++ inf :: post ->
       ~ In (influencer_id inf) (map influencer_id post) ->
       dict_get (influencer_id inf) pa = Some (influencer_results complete inf)) /\
    (forall inf, influencer_results complete inf = [] <->
       (forall p c, In (p, c) (influencer_platforms inf) -> c <> [] ->
          exists e, complete (CallPlatform (influencer_name inf) p c) = Raise e)).
Proof.
  intros complete st data Hd pa.
  split; [|split; [|split; [|split; [|split]]]].
  - unfold platform_analysis_of. rewrite (analyze_influencers_platforms_node_eq complete st data Hd).
    reflexivity.
  - intros inf Hin. unfold pa. apply dict_fold_keys. right. now apply in_map.
  - intros k Hk. unfold pa in Hk. apply dict_fold_keys in Hk as [[]|Hk].
    apply in_map_iff in Hk as (inf & E & Hin). eauto.
  - apply dict_fold_nodup. constructor.
  - intros pre inf post -> Hlast. unfold pa. now apply dict_fold_get_last.
  - intros inf. unfold influencer_results. rewrite dict_fold_nil, platform_successes_nil. tauto.
Qed.

Lemma platform_analysis_one_key_per_distinct_id_witness :
  influencer_data (w_state w_influencers) = Some w_influencers /\
  platform_analysis_of (analyze_influencers_platforms_node w_complete (w_state w_influencers))
    = Some (dict_fold influencer_id (influencer_results w_complete) w_influencers []).
Proof.
  split; [reflexivity|].
  exact (proj1 (platform_analysis_one_key_per_distinct_id w_complete (w_state w_influencers)
                  w_influencers eq_refl)).
Defined.

(** ** The Matcher node *)

Definition match_valid (item : json) : list MatchResult :=
  match validate_match item with Some m => [m] | None => [] end.

Definition match_invalid (item : json) : bool :=
  match validate_match item with Some _ => false | None => true end.

Lemma fold_match_item_step items matched errors :
  fold_left match_item_step items (matched, errors) =
  (matched ++ flat_map match_valid items, errors ++ map invalid_item_msg (filter match_invalid items)).
Proof.
  revert matched errors; induction items as [|it items IH]; intros matched errors; simpl.
  - now rewrite !app_nil_r.
  - unfold match_valid at 1, match_invalid at 1.
    destruct (validate_match it); simpl; rewrite IH; now rewrite <- app_assoc.
Qed.

(** ** C6 *)

(** C6: once the node reaches its single batched call, an answer that is
    not a (non-empty) list, or a raising call, gives empty [match_results]
    and exactly one error; a non-empty list keeps its valid items, in
    order, and drops each item lacking one of the four fields with one
    error quoting the item. *)
Theorem matcher_response_handling :
  forall (complete : Call -> result json) (st : MarketingWorkFlowState) tags profs pinfo idata,
    product_tags st = Some tags ->
    influencer_profiles st = Some profs -> profs <> [] ->
    product_info st = Some pinfo ->
    influencer_data st = Some idata ->
    let call := CallMatch (dict_update pinfo tags)
                  (map (fun '(inf_id, _) => (inf_id, name_from_data idata inf_id)) profs) in
    (forall v, complete call = Ok v -> (forall x xs, v <> JArr (x :: xs)) ->
       match_influencers_node complete st =
       ([call], Ok [Set_match_results (Some []);
                    Set_error_messages (error_messages st ++ ["Matcher did not return a valid list."])])) /\
    (forall e, complete call = Raise e ->
       match_influencers_node complete st =
       ([call], Ok [Set_match_results (Some []);
                    Set_error_messages (error_messages st ++ [("Matcher error: " ++ exn_msg e)%string])])) /\
    (forall items, complete call = Ok (JArr items) -> items <> [] ->
       match_influencers_node complete st =
       ([call], Ok [Set_match_results (Some (flat_map match_valid items));
                    Set_error_messages (error_messages st ++
                      map (fun item => ("Matcher returned an item with invalid format: "
                                        ++ json_repr item)%string)
                          (filter match_invalid items))])) /\
    (forall fs, (dict_get "influencerId" fs = None \/ dict_get "influencerName" fs = None \/
                 dict_get "match_score" fs = None \/ dict_get "match_rationale" fs = None) ->
       match_invalid (JObj fs) = true).
Proof.
  intros complete st tags profs pinfo idata Ht Hp Hne Hi Hd call.
  assert (Hnode : match_influencers_node complete st =
    match complete call with
    | Ok parsed =>
        match parsed with
        | JArr ((_ :: _) as items) =>
            let '(matched, errors') := fold_left match_item_step items ([], error_messages st) in
            ([call], Ok [Set_match_results (Some matched); Set_error_messages errors'])
        | _ => ([call], Ok [Set_match_results (Some []);
                            Set_error_messages (error_messages st ++ ["Matcher did not return a valid list."])])
        end
    | Raise e => ([call], Ok [Set_match_results (Some []);
                              Set_error_messages (error_messages st ++ [("Matcher error: " ++ exn_msg e)%string])])
    end).
  { unfold match_influencers_node. rewrite Ht, Hp, Hi, Hd.
    destruct profs as [|p0 profs']; [congruence|]. reflexivity. }
  split; [|split; [|split]].
  - intros v Hv Hnl. rewrite Hnode, Hv.
    destruct v as [| | | |[|x xs]|]; try reflexivity. exfalso; exact (Hnl x xs eq_refl).
  - intros e He. now rewrite Hnode, He.
  - intros items Hv Hne'. rewrite Hnode, Hv.
    destruct items as [|x xs]; [congruence|].
    rewrite fold_match_item_step. reflexivity.
  - intros fs Hmiss. unfold match_invalid, validate_match.
    repeat match goal with
           | |- context [match dict_get ?k ?fs with _ => _ end] =>
               let E := fresh "E" in destruct (dict_get k fs) as [[]|] eqn:E
           end; try reflexivity; intuition congruence.
Qed.

Definition w_match_state (tags : option ProductTags) (profs : option (dict InfluencerProfile))
    : MarketingWorkFlowState :=
  mkMarketingWorkFlowState (Some [("name", JStr "lamp")]) (Some w_influencers) tags None profs
    None None None ["earlier"] (PFin (inject_Z 75)).

Definition w_match_complete (c : Call) : result json :=
  match c with
  | CallMatch _ _ => Ok (JArr [JObj [("influencerId", JStr "i1"); ("influencerName", JStr "Ann");
                                     ("match_score", JStr "88%"); ("match_rationale", JStr "fit")];
                               JObj [("influencerId", JStr "i2")]])
  | _ => Ok JNull
  end.

Lemma matcher_response_handling_witness :
  match_influencers_node w_match_complete
    (w_match_state (Some [("FeatureTags", JArr [])]) (Some [("i1", JObj []); ("i2", JObj [])])) =
  ([CallMatch [("name", JStr "lamp"); ("FeatureTags", JArr [])] [("i1", "Ann"); ("i2", "Bob")]],
   Ok [Set_match_results (Some [mkMatchResult "i1" "Ann" "88%" "fit"]);
       Set_error_messages ["earlier"; "Matcher returned an item with invalid format: {'influencerId': 'i2'}"]]).
Proof.
  destruct (matcher_response_handling w_match_complete
              (w_match_state (Some [("FeatureTags", JArr [])]) (Some [("i1", JObj []); ("i2", JObj [])]))
              [("FeatureTags", JArr [])] [("i1", JObj []); ("i2", JObj [])]
              [("name", JStr "lamp")] w_influencers eq_refl eq_refl ltac:(discriminate) eq_refl eq_refl)
    as (_ & _ & Hlist & _).
  rewrite (Hlist _ eq_refl ltac:(discriminate)). vm_compute. reflexivity.
Defined.

(** ** C7 *)

(** C7 (as stated, refuted): with [product_tags] absent and
    [influencer_profiles] empty, the node stops at the first check and does
    not report the missing profiles. *)
Lemma matcher_both_missing_counterexample :
  let st := w_match_state None None in
  influencer_profiles st = None /\
  match_influencers_node w_match_complete st =
    ([], Ok [Set_match_results (Some []);
             Set_error_messages ["earlier"; "Cannot match: Product tags missing."]]) /\
  ~ (exists errs, errors_of (match_influencers_node w_match_complete st) = Some errs /\
                  In "Cannot match: Influencer profiles missing." errs).
Proof.
  split; [reflexivity|]. split; [reflexivity|].
  intros (errs & E & Hin). vm_compute in E. injection E as <-.
  simpl in Hin. intuition discriminate.
Qed.

(** C7 (amended): the checks run in order.  Without [product_tags] the
    node appends only "Cannot match: Product tags missing."; with tags but
    no profiles ([None] or empty) it appends "Cannot match: Influencer
    profiles missing."; either way [match_results] is empty and no
    completion call is made. *)
Theorem matcher_preconditions_short_circuit :
  forall (complete : Call -> result json) (st : MarketingWorkFlowState),
    (product_tags st = None ->
     match_influencers_node complete st =
     ([], Ok [Set_match_results (Some []);
              Set_error_messages (error_messages st ++ ["Cannot match: Product tags missing."])])) /\
    (forall tags, product_tags st = Some tags ->
     (influencer_profiles st = None \/ influencer_profiles st = Some []) ->
     match_influencers_node complete st =
     ([], Ok [Set_match_results (Some []);
              Set_error_messages (error_messages st ++ ["Cannot match: Influencer profiles missing."])])).
Proof.
  intros complete st. split.
  - intros Ht. unfold match_influencers_node. now rewrite Ht.
  - intros tags Ht [Hp|Hp]; unfold match_influencers_node; now rewrite Ht, Hp.
Qed.

Lemma matcher_preconditions_short_circuit_witness :
  match_influencers_node w_match_complete (w_match_state (Some []) (Some [])) =
  ([], Ok [Set_match_results (Some []);
           Set_error_messages ["earlier"; "Cannot match: Influencer profiles missing."]]).
Proof.
  exact (proj2 (matcher_preconditions_short_circuit w_match_complete (w_match_state (Some []) (Some [])))
           [] eq_refl (or_intror eq_refl)).
Defined.

(** ** The EmailComposer node *)

Section EmailClosedForm.
Variable complete : Call -> result json.
Variable product_input : dict json.
Variable profiles : dict InfluencerProfile.

(** One influencer's iteration on its own: calls, emails and errors. *)
Definition email_item (m : MatchResult) : list Call * list GeneratedEmail * list string :=
  email_step complete product_input profiles ([], [], []) m.

Lemma email_step_frame c em er m :
  email_step complete product_input profiles (c, em, er) m =
  (c ++ fst (fst (email_item m)), em ++ snd (fst (email_item m)), er ++ snd (email_item m)).
Proof.
  unfold email_item, email_step.
  destruct (dict_get (influencerId m) profiles); [|simpl; now rewrite ?app_nil_r].
  destruct (complete _) as [[| | | | |fs]|e]; try (simpl; now rewrite ?app_nil_r).
  destruct (dict_get "email_subject" fs) as [[]|], (dict_get "email_body" fs) as [[]|];
    simpl; now rewrite ?app_nil_r.
Qed.

Lemma fold_email_step sel c em er :
  fold_left (email_step complete product_input profiles) sel (c, em, er) =
  (c ++ flat_map (fun m => fst (fst (email_item m))) sel,
   em ++ flat_map (fun m => snd (fst (email_item m))) sel,
   er ++ flat_map (fun m => snd (email_item m)) sel).
Proof.
  revert c em er; induction sel as [|m sel IH]; intros c em er.
  - simpl. now rewrite !app_nil_r.
  - cbn [fold_left flat_map]. rewrite email_step_frame, IH. now rewrite <- !app_assoc.
Qed.

End EmailClosedForm.

(** ** C9 *)

(** C9: each selected influencer is handled on its own.  One without a
    profile adds exactly the error "Profile missing for selected influencer
    <name>." and no call or email; one with a profile gets exactly one
    completion call and either an email or one error that is not a
    profile-missing one.  With two selected influencers of which only the
    first has a profile and a well-formed answer, one email is produced and
    exactly one error, the profile-missing one for the second. *)
Theorem emails_skip_only_missing_profiles :
  forall (complete : Call -> result json) (st : MarketingWorkFlowState) sel pinfo profs,
    selected_influencers st = Some sel ->
    product_info st = Some pinfo ->
    influencer_profiles st = Some profs ->
    let pinput := match product_tags st with Some t => dict_update pinfo t | None => pinfo end in
    let item := email_item complete pinput profs in
    generate_emails_node complete st =
      (flat_map (fun m => fst (fst (item m))) sel,
       Ok [Set_generated_emails (Some (flat_map (fun m => snd (fst (item m))) sel));
           Set_error_messages (error_messages st ++ flat_map (fun m => snd (item m)) sel)]) /\
    (forall m, dict_get (influencerId m) profs = None ->
       item m = ([], [], [("Profile missing for selected influencer " ++ influencerName m ++ ".")%string])) /\
    (forall m p, dict_get (influencerId m) profs = Some p ->
       fst (fst (item m)) = [CallEmail pinput (influencerId m) (influencerName m)] /\
       length (snd (fst (item m))) + length (snd (item m)) = 1 /\
       (forall s, In s (snd (item m)) ->
          String.prefix "Profile missing for selected influencer " s = false)) /\
    (forall a b p subject body,
       sel = [a; b] -> dict_get (influencerId a) profs = Some p ->
       dict_get (influencerId b) profs = None ->
       complete (CallEmail pinput (influencerId a) (influencerName a))
         = Ok (JObj [("email_subject", JStr subject); ("email_body", JStr body)]) ->
       generate_emails_node complete st =
         ([CallEmail pinput (influencerId a) (influencerName a)],
          Ok [Set_generated_emails
                (Some [mkGeneratedEmail (influencerId a) (influencerName a) subject body]);
              Set_error_messages (error_messages st ++
                [("Profile missing for selected influencer " ++ influencerName b ++ ".")%string])])).
Proof.
  intros complete st sel pinfo profs Hs Hi Hp pinput item.
  assert (Hnode : generate_emails_node complete st =
      (flat_map (fun m => fst (fst (item m))) sel,
       Ok [Set_generated_emails (Some (flat_map (fun m => snd (fst (item m))) sel));
           Set_error_messages (error_messages st ++ flat_map (fun m => snd (item m)) sel)])).
  { unfold generate_emails_node. rewrite Hs, Hi, Hp.
    destruct sel as [|m sel'].
    - simpl. now rewrite app_nil_r.
    - cbv beta iota zeta. rewrite fold_email_step. reflexivity. }
  split; [exact Hnode|]. split; [|split].
  - intros m Hm. unfold item, email_item, email_step. now rewrite Hm.
  - intros m p Hm. unfold item, email_item, email_step. rewrite Hm.
    destruct (complete (CallEmail pinput (influencerId m) (influencerName m))) as [v|e];
      [destruct v as [| | | | |fs];
       [..|destruct (dict_get "email_subject" fs) as [[]|], (dict_get "email_body" fs) as [[]|]]|];
      cbn; (split; [reflexivity|split; [reflexivity|]]);
      intros msg Hin; simpl in Hin; intuition (subst; reflexivity).
  - intros a b p subject body -> Ha Hb Hc. rewrite Hnode. simpl.
    unfold item, email_item, email_step. rewrite Ha, Hb, Hc. reflexivity.
Qed.

Definition w_email_complete (c : Call) : result json :=
  match c with
  | CallEmail _ _ name => Ok (JObj [("email_subject", JStr "Hello"); ("email_body", JStr ("Dear " ++ name)%string)])
  | _ => Ok JNull
  end.

Definition w_email_state : MarketingWorkFlowState :=
  mkMarketingWorkFlowState (Some [("name", JStr "lamp")]) (Some w_influencers) None None
    (Some [("i1", JObj [])])
    None (Some [mkMatchResult "i1" "Ann" "88%" "fit"; mkMatchResult "i2" "Bob" "80%" "ok"]) None
    ["earlier"] (PFin (inject_Z 75)).

Lemma emails_skip_only_missing_profiles_witness :
  generate_emails_node w_email_complete w_email_state =
  ([CallEmail [("name", JStr "lamp")] "i1" "Ann"],
   Ok [Set_generated_emails (Some [mkGeneratedEmail "i1" "Ann" "Hello" "Dear Ann"]);
       Set_error_messages ["earlier"; "Profile missing for selected influencer Bob."]]).
Proof.
  destruct (emails_skip_only_missing_profiles w_email_complete w_email_state
              [mkMatchResult "i1" "Ann" "88%" "fit"; mkMatchResult "i2" "Bob" "80%" "ok"]
              [("name", JStr "lamp")] [("i1", JObj [])] eq_refl eq_refl eq_refl)
    as (_ & _ & _ & Hscen).
  exact (Hscen (mkMatchResult "i1" "Ann" "88%" "fit") (mkMatchResult "i2" "Bob" "80%" "ok")
           (JObj []) "Hello" "Dear Ann" eq_refl eq_refl eq_refl eq_refl).
Defined.

(** ** The marketing workflow's first node *)

(** [analyze_product_node] raises on every marketing state, whatever the
    completion chain answers. *)
Lemma analyze_product_node_raises complete st :
  analyze_product_node complete st
  = ([], Raise (attribute_error "MarketingWorkFlowState" "error_message")).
Proof. reflexivity. Qed.

(** So every run of [workflow_app] stops in its entry node with that
    exception: no later node and no conditional edge is reached. *)
Lemma workflow_app_invoke_raises complete float_of st :
  invoke (workflow_app complete float_of) st
  = (["analyze_product_node"], Raise (attribute_error "MarketingWorkFlowState" "error_message")).
Proof. reflexivity. Qed.

(** ** C8 *)


(** ** C3 *)


Definition w_intent_complete (c : Call) : result json :=
  match c with
  | CallIntent _ _ => Raise (Exn "OutputParserException" "Invalid json output")
  | _ => Ok JNull
  end.

Definition w_intent_state : IntentAnalysisState :=
  mkIntentAnalysisState (Some "Re: collaboration") "Sounds good, send details." None None.


(** ** The panel discussion's termination *)

Module PanelProps.
Import Panel.

(** The label [choose] gives the [index]-th role, counted from 0. *)
Definition play_label (i : nat) : string := ("play" ++ digit_string (S i))%string.

(** One step of [graph.invoke] at the host node and at a player node. *)
Lemma run_panel_host pick hr pr f state d draws :
  run_panel pick hr pr (S f) hostNode state d draws =
  match msgParser pick state d draws with
  | Raise e => ([], Raise e)
  | Ok (d1, draws1) =>
      let state1 := state ++ [hr d1] in
      match choose state1 d1 with
      | Raise e => ([], Raise e)
      | Ok (label, d2) =>
          let v := VHost (mkChoice (length state1) (isEnd d1) (isEnd d2) label) in
          match host_edges label with
          | None => ([v], Ok (state1, d2))
          | Some next => let '(vs, r) := run_panel pick hr pr f next state1 d2 draws1 in (v :: vs, r)
          end
      end
  end.
Proof. reflexivity. Qed.

Lemma run_panel_play pick hr pr f i state d draws :
  run_panel pick hr pr (S f) (playNode i) state d draws =
  match playMsgParser state d with
  | Raise e => ([VPlay i], Raise e)
  | Ok d1 =>
      let state1 := state ++ [pr i (chatList d1)] in
      let '(vs, r) := run_panel pick hr pr f hostNode state1 d1 draws in (VPlay i :: vs, r)
  end.
Proof. reflexivity. Qed.

(** A role of [role_List] is routed to its own player node. *)
Lemma route_role p :
  In p role_List ->
  exists i, i < 4 /\ route_for_from 0 role_List p = play_label i /\
            host_edges (play_label i) = Some (playNode i).
Proof.
  intros [<-|[<-|[<-|[<-|[]]]]];
    [exists 0|exists 1|exists 2|exists 3]; repeat split; try reflexivity; lia.
Qed.

(** The routing predicate once [isEnd] is set. *)
Lemma choose_after_end state d :
  isEnd d = true -> choose state d = Ok ("end", d).
Proof. intros H. unfold choose. now rewrite H. Qed.

(** The routing predicate on the visit that first crosses the ceiling. *)
Lemma choose_crossing state d p :
  isEnd d = false -> 5 < length state -> player d = Some p -> In p role_List ->
  exists i, i < 4 /\ choose state d = Ok (play_label i, set_isEnd d true).
Proof.
  intros He Hl Hp Hin. destruct (route_role p Hin) as (i & Hi & Hr & _).
  exists i. split; [exact Hi|].
  unfold choose. rewrite He. apply Nat.ltb_lt in Hl. rewrite Hl.
  cbn [set_isEnd player]. rewrite Hp, Hr. reflexivity.
Qed.

(** ** C2 *)

(** C2: once the transcript is longer than 5 messages, [choose] sets
    [isEnd] but still routes to a player; every later call returns
    ["end"].  So a full run from [graph.invoke([])], whatever the random
    draws (each a role of [role_List]), makes five host visits: the routing
    predicate sees 1, 3, 5 and 7 messages and picks a player each time,
    setting [isEnd] on the fourth visit (7 > 5); the fifth visit, with 9
    messages, is the extra host turn, after which the graph ends with
    [isEnd] set. *)
Theorem panel_end_one_extra_host_turn
    (pick : nat -> string) (host_reply : panel_data -> string)
    (player_reply : nat -> chat -> string) (topic roleDesListStr : string)
    (Hpick : forall n, In (pick n) role_List) :
  (forall state d, isEnd d = true -> choose state d = Ok ("end", d)) /\
  (forall state d p, isEnd d = false -> 5 < length state -> player d = Some p ->
     In p role_List ->
     exists i, i < 4 /\ choose state d = Ok (play_label i, set_isEnd d true)) /\
  (exists i0 i1 i2 i3 msgs d,
     i0 < 4 /\ i1 < 4 /\ i2 < 4 /\ i3 < 4 /\
     invoke_panel pick host_reply player_reply topic roleDesListStr =
       ([VHost (mkChoice 1 false false (play_label i0)); VPlay i0;
         VHost (mkChoice 3 false false (play_label i1)); VPlay i1;
         VHost (mkChoice 5 false false (play_label i2)); VPlay i2;
         VHost (mkChoice 7 false true (play_label i3)); VPlay i3;
         VHost (mkChoice 9 true true "end")], Ok (msgs, d)) /\
     length msgs = 9 /\ isEnd d = true).
Proof.
  split; [exact choose_after_end|split; [exact choose_crossing|]].
  destruct (route_role _ (Hpick 0)) as (i0 & Hi0 & Hr0 & He0).
  destruct (route_role _ (Hpick 1)) as (i1 & Hi1 & Hr1 & He1).
  destruct (route_role _ (Hpick 2)) as (i2 & Hi2 & Hr2 & He2).
  destruct (route_role _ (Hpick 3)) as (i3 & Hi3 & Hr3 & He3).
  unfold invoke_panel.
  repeat (first [rewrite run_panel_host | rewrite run_panel_play];
          cbn -[run_panel route_for_from host_edges play_label];
          rewrite ?Hr0, ?Hr1, ?Hr2, ?Hr3, ?He0, ?He1, ?He2, ?He3;
          cbn -[run_panel route_for_from host_edges play_label]).
  change (host_edges "end") with (@None pnode); cbn -[route_for_from play_label].
  do 6 eexists. split; [exact Hi0|split; [exact Hi1|split; [exact Hi2|split; [exact Hi3|]]]].
  split; [reflexivity|split; reflexivity].
Qed.

Definition w_pick (n : nat) : string := nth (n mod 4) role_List "".

Lemma panel_end_one_extra_host_turn_witness :
  exists i0 i1 i2 i3 msgs d,
    i0 < 4 /\ i1 < 4 /\ i2 < 4 /\ i3 < 4 /\
    invoke_panel w_pick (fun _ => "Welcome") (fun _ _ => "Hello") "Topic" "Roles" =
      ([VHost (mkChoice 1 false false (play_label i0)); VPlay i0;
        VHost (mkChoice 3 false false (play_label i1)); VPlay i1;
        VHost (mkChoice 5 false false (play_label i2)); VPlay i2;
        VHost (mkChoice 7 false true (play_label i3)); VPlay i3;
        VHost (mkChoice 9 true true "end")], Ok (msgs, d)) /\
    length msgs = 9 /\ isEnd d = true.
Proof.
  refine (proj2 (proj2 (panel_end_one_extra_host_turn w_pick (fun _ => "Welcome")
                          (fun _ _ => "Hello") "Topic" "Roles" _))).
  intros n. unfold w_pick. apply nth_In. change (length role_List) with 4. apply Nat.mod_upper_bound. discriminate.
Defined.

End PanelProps.

(* ================================================================== *)
(** * Further properties of the nodes *)

(** ** Association-list facts *)

Lemma dict_get_In_nodup {V} (k : string) (v : V) (d : dict V) :
  NoDup (map fst d) -> dict_get k d = Some v <-> In (k, v) d.
Proof.
  induction d as [|[k' v'] d IH]; simpl; intros Hnd; [split; [discriminate|tauto]|].
  inversion Hnd as [|? ? Hk Hnd']; subst.
  destruct (String.eqb_spec k k') as [->|Hne].
  - split.
    + intros [= ->]. now left.
    + intros [[= ->]|Hin]; [reflexivity|].
      exfalso. apply Hk. apply (in_map fst) in Hin. exact Hin.
  - rewrite IH by exact Hnd'. split; [now right|].
    intros [[= -> ->]|Hin]; [congruence|exact Hin].
Qed.

Lemma flat_map_ext_in {A B} (f g : A -> list B) (l : list A) :
  (forall x, In x l -> f x = g x) -> flat_map f l = flat_map g l.
Proof.
  induction l as [|x l IH]; simpl; intros H; [reflexivity|].
  rewrite (H x (or_introl eq_refl)), IH; [reflexivity|]. intros y Hy. apply H. now right.
Qed.

(** ** generate_influencer_profiles_node *)

Section ProfileClosedForm.
Variable complete : Call -> result json.
Variable names : dict string.

(** One entry of [platform_analysis_map.items()] on its own. *)
Definition profile_item (entry : string * dict PlatformAnalysisResult)
    : list Call * dict InfluencerProfile * list string :=
  profile_step complete names ([], [], []) entry.

Lemma profile_item_keys entry k :
  In k (map fst (snd (fst (profile_item entry)))) -> k = fst entry.
Proof.
  destruct entry as [id [|d det]]; unfold profile_item, profile_step; simpl; [tauto|].
  destruct (complete _); simpl; intuition.
Qed.

Lemma profile_step_frame c p e entry :
  ~ In (fst entry) (map fst p) ->
  profile_step complete names (c, p, e) entry =
  (c ++ fst (fst (profile_item entry)), p ++ snd (fst (profile_item entry)),
   e ++ snd (profile_item entry)).
Proof.
  destruct entry as [id [|d det]]; simpl; intros Hk; unfold profile_item, profile_step.
  - simpl. now rewrite !app_nil_r.
  - destruct (complete _); simpl; [rewrite dict_set_fresh by exact Hk|]; now rewrite ?app_nil_r.
Qed.

Lemma fold_profile_step pa c p e :
  NoDup (map fst pa) -> (forall k, In k (map fst pa) -> ~ In k (map fst p)) ->
  fold_left (profile_step complete names) pa (c, p, e) =
  (c ++ flat_map (fun x => fst (fst (profile_item x))) pa,
   p ++ flat_map (fun x => snd (fst (profile_item x))) pa,
   e ++ flat_map (fun x => snd (profile_item x)) pa).
Proof.
  revert c p e; induction pa as [|x pa IH]; intros c p e Hnd Hfr.
  - simpl. now rewrite !app_nil_r.
  - cbn [fold_left flat_map map fst] in *. inversion Hnd as [|? ? Hx Hnd']; subst.
    rewrite profile_step_frame by (apply Hfr; now left).
    rewrite IH; [now rewrite <- !app_assoc|exact Hnd'|].
    intros k Hk. rewrite map_app, in_app_iff. intros [H|H].
    + exact (Hfr k (or_intror Hk) H).
    + apply profile_item_keys in H. subst k. exact (Hx Hk).
Qed.

Lemma profile_items_keys pa k :
  In k (map fst (flat_map (fun x => snd (fst (profile_item x))) pa)) -> In k (map fst pa).
Proof.
  induction pa as [|x pa IH]; simpl; [tauto|].
  rewrite map_app, in_app_iff. intros [H|H].
  - left. symmetry. now apply profile_item_keys.
  - right. now apply IH.
Qed.

Lemma profile_items_nodup pa :
  NoDup (map fst pa) -> NoDup (map fst (flat_map (fun x => snd (fst (profile_item x))) pa)).
Proof.
  induction pa as [|[id det] pa IH]; simpl; intros Hnd; [constructor|].
  inversion Hnd as [|? ? Hx Hnd']; subst.
  destruct det as [|d det]; unfold profile_item at 1, profile_step at 1; simpl; [now apply IH|].
  destruct (complete _); simpl; [|now apply IH].
  constructor; [|now apply IH]. intros H. apply Hx. now apply profile_items_keys in H.
Qed.

End ProfileClosedForm.

(** The entries that end in an error: no platform data, or a failed call. *)
Definition profile_fails (complete : Call -> result json) (name : string -> string)
    (entry : string * dict PlatformAnalysisResult) : bool :=
  let '(id, det) := entry in
  match det with
  | [] => true
  | _ => match complete (CallProfile id (name id) (map snd det)) with
         | Ok _ => false
         | Raise _ => true
         end
  end.

Lemma profile_errors_length complete names pa :
  length (flat_map (fun x => snd (profile_item complete names x)) pa)
  = length (filter (profile_fails complete (profile_name names)) pa).
Proof.
  induction pa as [|[id [|d det]] pa IH]; [reflexivity| |].
  - cbn [flat_map filter]. rewrite length_app, IH. reflexivity.
  - cbn [flat_map filter]. rewrite length_app, IH.
    unfold profile_item, profile_step, profile_fails. cbn.
    destruct (complete _); reflexivity.
Qed.

(** The profile node, when [platform_analysis] is present and non-empty:
    one completion call per influencer id whose analysis map is non-empty,
    in the map's order; [influencer_profiles] holds, for each id, exactly
    the answer of a successful call for it; the error log keeps its old
    entries and gains one per id without data or with a failed call.
    With [platform_analysis] absent or empty, no call is made, the
    profiles are empty and one error is logged. *)
Theorem profiles_node_outcome (complete : Call -> result json) (st : MarketingWorkFlowState)
    (pa : dict (dict PlatformAnalysisResult)) (data : list Influencer)
    (Hpa : platform_analysis st = Some pa) (Hne : pa <> [])
    (Hd : influencer_data st = Some data) (Hwf : dict_wf pa) :
  let name := profile_name (id_to_name_map data) in
  exists profiles new_errors,
    generate_influencer_profiles_node complete st =
      (flat_map (fun '(id, det) => match det with
                                   | [] => []
                                   | _ => [CallProfile id (name id) (map snd det)]
                                   end) pa,
       Ok [Set_influencer_profiles (Some profiles);
           Set_error_messages (error_messages st ++ new_errors)]) /\
    dict_wf profiles /\
    (forall id p, dict_get id profiles = Some p <->
       exists det, In (id, det) pa /\ det <> [] /\
                   complete (CallProfile id (name id) (map snd det)) = Ok p) /\
    length new_errors = length (filter (profile_fails complete name) pa) /\
    (forall st', platform_analysis st' = None \/ platform_analysis st' = Some [] ->
       generate_influencer_profiles_node complete st' =
         ([], Ok [Set_influencer_profiles (Some []);
                  Set_error_messages (error_messages st' ++
                    ["Cannot generate profiles: No platform analysis data available."])])).
Proof.
  intros name. subst name.
  set (item := profile_item complete (id_to_name_map data)).
  exists (flat_map (fun x => snd (fst (item x))) pa), (flat_map (fun x => snd (item x)) pa).
  assert (Hnode : generate_influencer_profiles_node complete st =
            (flat_map (fun x => fst (fst (item x))) pa,
             Ok [Set_influencer_profiles (Some (flat_map (fun x => snd (fst (item x))) pa));
                 Set_error_messages (error_messages st ++ flat_map (fun x => snd (item x)) pa)])).
  { unfold generate_influencer_profiles_node. rewrite Hpa, Hd.
    destruct pa as [|x pa']; [congruence|].
    rewrite (fold_profile_step complete (id_to_name_map data) (x :: pa') [] [] (error_messages st) Hwf)
      by (intros k _ []).
    reflexivity. }
  split; [|split; [|split; [|split]]].
  - rewrite Hnode. f_equal. apply flat_map_ext_in. intros [id [|d det]] _; [reflexivity|].
    unfold item, profile_item, profile_step. simpl.
    destruct (complete _); reflexivity.
  - apply profile_items_nodup, Hwf.
  - intros id p. rewrite dict_get_In_nodup by (apply profile_items_nodup, Hwf).
    rewrite in_flat_map. split.
    + intros ([id' det] & Hin & Hp). unfold item, profile_item, profile_step in Hp.
      destruct det as [|d det]; simpl in Hp; [contradiction|].
      destruct (complete _) eqn:Ec; simpl in Hp; [|contradiction].
      destruct Hp as [[= <- <-]|[]]. exists (d :: det). split; [exact Hin|split; [discriminate|exact Ec]].
    + intros (det & Hin & Hdet & Hc). exists (id, det). split; [exact Hin|].
      unfold item, profile_item, profile_step. destruct det as [|d det]; [congruence|].
      simpl in Hc |- *. rewrite Hc. now left.
  - apply profile_errors_length.
  - intros st' [H|H]; unfold generate_influencer_profiles_node; now rewrite H.
Qed.

Definition w_profile_complete (c : Call) : result json :=
  match c with
  | CallProfile "i2" _ _ => Raise (Exn "OutputParserException" "Invalid json output")
  | CallProfile _ name _ => Ok (JObj [("influencerEval", JStr name)])
  | _ => Ok JNull
  end.

Definition w_profile_state : MarketingWorkFlowState :=
  mkMarketingWorkFlowState (Some [("name", JStr "lamp")]) (Some w_influencers) None
    (Some [("i1", [("tiktok", JObj [("platform", JStr "tiktok")])]);
           ("i2", [("youtube", JObj [("platform", JStr "youtube")])]);
           ("i3", [])])
    None None None None [] (PFin (inject_Z 75)).

Lemma profiles_node_outcome_witness :
  exists profiles new_errors,
    generate_influencer_profiles_node w_profile_complete w_profile_state =
      ([CallProfile "i1" "Ann" [JObj [("platform", JStr "tiktok")]];
        CallProfile "i2" "Bob" [JObj [("platform", JStr "youtube")]]],
       Ok [Set_influencer_profiles (Some profiles); Set_error_messages ([] ++ new_errors)]) /\
    dict_get "i1" profiles = Some (JObj [("influencerEval", JStr "Ann")]) /\
    dict_get "i2" profiles = None /\
    length new_errors = 2.
Proof.
  destruct (profiles_node_outcome w_profile_complete w_profile_state _ w_influencers
              eq_refl ltac:(discriminate) eq_refl
              ltac:(unfold dict_wf; simpl; repeat constructor; simpl; intuition congruence))
    as (profiles & new_errors & H1 & _ & H3 & H4 & _).
  exists profiles, new_errors. split; [exact H1|split; [|split]].
  - apply H3. exists [("tiktok", JObj [("platform", JStr "tiktok")])].
    split; [now left|split; [discriminate|reflexivity]].
  - destruct (dict_get "i2" profiles) as [p|] eqn:E; [|reflexivity].
    apply H3 in E. destruct E as (det & Hin & _ & Hc).
    simpl in Hin. destruct Hin as [[=]|[[= <-]|[[=]|[]]]]. discriminate Hc.
  - rewrite H4. reflexivity.
Defined.

(** ** How the profile node and the matcher name an influencer id *)

(** The profile node reads the name from a dict comprehension over
    [influencer_data], so the last entry with the id wins, and an id no
    entry carries is shown as ["Unknown ID: <id>"].  The matcher scans
    [influencer_data] and breaks at the first entry whose
    ["influencerId"] equals the id, so the first entry wins; an entry
    without ["influencerId"] never matches, and an id no entry carries is
    named ["UnknownName"]. *)
Theorem influencer_name_resolution :
  (forall pre x post,
     (forall y, In y post -> influencer_id y <> influencer_id x) ->
     profile_name (id_to_name_map (pre ++ x :: post)) (influencer_id x) = influencer_name x) /\
  (forall data i,
     (forall y, In y data -> influencer_id y <> i) ->
     profile_name (id_to_name_map data) i = ("Unknown ID: " ++ i)%string) /\
  (forall pre x post i,
     inf_influencerId x = Some i ->
     (forall y, In y pre -> inf_influencerId y <> Some i) ->
     name_from_data (pre ++ x :: post) i = influencer_name x) /\
  (forall data i,
     (forall y, In y data -> inf_influencerId y <> Some i) ->
     name_from_data data i = "UnknownName").
Proof.
  split; [|split; [|split]].
  - intros pre x post Hpost. unfold profile_name.
    change (id_to_name_map (pre ++ x :: post))
      with (dict_fold influencer_id influencer_name (pre ++ x :: post) []).
    rewrite dict_fold_get_last; [reflexivity|].
    rewrite in_map_iff. intros (y & Hy & Hin). exact (Hpost y Hin Hy).
  - intros data i H. unfold profile_name.
    change (id_to_name_map data) with (dict_fold influencer_id influencer_name data []).
    rewrite dict_fold_get_untouched; [reflexivity|].
    rewrite in_map_iff. intros (y & Hy & Hin). exact (H y Hin Hy).
  - intros pre x post i Hx Hpre. unfold name_from_data.
    induction pre as [|y pre IH]; simpl.
    + rewrite Hx, String.eqb_refl. reflexivity.
    + destruct (inf_influencerId y) as [j|] eqn:Ey.
      * destruct (String.eqb_spec j i) as [->|]; [exfalso; exact (Hpre y (or_introl eq_refl) Ey)|].
        apply IH. intros z Hz. apply Hpre. now right.
      * apply IH. intros z Hz. apply Hpre. now right.
  - intros data i H. unfold name_from_data.
    destruct (find _ data) as [y|] eqn:E; [|reflexivity].
    apply find_some in E. destruct E as [Hin Hy].
    destruct (inf_influencerId y) as [j|] eqn:Ey; [|discriminate].
    apply String.eqb_eq in Hy. subst j. exfalso. exact (H y Hin Ey).
Qed.

(** ** intent_analysis_node *)


(* ================================================================== *)
(** * main.py: the FastAPI endpoints that run the graphs *)

(** What an endpoint gives its client: a [ResponseModel] with
    [success=True], or an [HTTPException] (every other exception is
    caught by the endpoints and turned into one). *)
Inductive api_outcome (A : Type) : Type :=
| Success (message : string) (data : A)
| HTTPError (status_code : nat) (detail : string).
Arguments Success {A} message data.
Arguments HTTPError {A} status_code detail.

(** [needle in hay] on strings. *)
Fixpoint str_contains (needle hay : string) : bool :=
  String.prefix needle hay ||
  match hay with
  | EmptyString => false
  | String _ hay' => str_contains needle hay'
  end.

(** [intent_app.invoke(initial_state_dict)]: START, the one node, END; the
    node's two fields are merged into the state. *)
Definition intent_app_invoke (complete : Call -> result json) (st : IntentAnalysisState)
    : list Call * result IntentAnalysisState :=
  let '(calls, r) := intent_analysis_node complete st in
  (calls, match r with
          | Ok (analysis_result, error_message) =>
              Ok (mkIntentAnalysisState (ia_email_subject st) (ia_email_body st)
                    analysis_result error_message)
          | Raise e => Raise e
          end).

Section Endpoints.
Variable complete : Call -> result json.

(** [EmailIntentOutput( **analysis_result)]: pydantic's validation. *)
Variable validate_intent_output : dict json -> result json.

(** [analyze_email_intent] *)
Definition analyze_email_intent (email_subject : option string) (email_body : string)
    : list Call * api_outcome json :=
  let '(calls, r) :=
    intent_app_invoke complete (mkIntentAnalysisState email_subject email_body None None) in
  (calls,
   match r with
   | Raise e => HTTPError 500 ("Error during email intent analysis: " ++ exn_msg e)%string
   | Ok final_state =>
       match ia_error_message final_state with
       | Some m =>
           if negb (String.eqb m "") then
             HTTPError 500 ("Email intent analysis failed: " ++ m)%string
           else
             match ia_analysis_result final_state with
             | None | Some [] => HTTPError 500 "Email intent analysis returned invalid format."
             | Some analysis_result =>
                 match validate_intent_output analysis_result with
                 | Ok v => Success "Email intent analysis successful." v
                 | Raise e => HTTPError 500 ("Error during email intent analysis: " ++ exn_msg e)%string
                 end
             end
       | None =>
           match ia_analysis_result final_state with
           | None | Some [] => HTTPError 500 "Email intent analysis returned invalid format."
           | Some analysis_result =>
               match validate_intent_output analysis_result with
               | Ok v => Success "Email intent analysis successful." v
               | Raise e => HTTPError 500 ("Error during email intent analysis: " ++ exn_msg e)%string
               end
           end
       end
   end).

Variable float_of : string -> option pyfloat.

(** [MarketingWorkflowOutputData(...)] built from the final state. *)
Variable workflow_output : MarketingWorkFlowState -> result json.

(** A [null] [match_threshold] in the request reaches the state, whose
    field is a float: pydantic refuses it when the graph builds the state
    (its message, abbreviated). *)
Definition match_threshold_none_error : exn :=
  Exn "ValidationError" "1 validation error for MarketingWorkFlowState match_threshold Input should be a valid number".

(** [run_marketing_workflow]: the request's product dict, its influencers
    as (influencerId, influencerName, platforms) and its threshold. *)
Definition run_marketing_workflow (product_info_dict : dict json)
    (influencer_data : list (string * string * dict (list json)))
    (match_threshold : option pyfloat) : api_outcome json :=
  let influencer_data_list_for_state :=
    map (fun '(i, n, p) => mkInfluencer (Some i) (Some n) (Some p)) influencer_data in
  let r :=
    match match_threshold with
    | None => Raise match_threshold_none_error
    | Some th =>
        snd (invoke (workflow_app complete float_of)
               (mkMarketingWorkFlowState (Some product_info_dict)
                  (Some influencer_data_list_for_state) None None None None None None [] th))
    end in
  match r with
  | Raise e => HTTPError 500 ("Error executing marketing workflow: " ++ exn_msg e)%string
  | Ok final_state =>
      match workflow_output final_state with
      | Ok output_data => Success "Marketing workflow executed." output_data
      | Raise e => HTTPError 500 ("Error executing marketing workflow: " ++ exn_msg e)%string
      end
  end.

(** [ProductAnalysisOutput( **product_tags_output)] *)
Variable validate_product_tags : dict json -> result json.

(** [analyze_product_standalone]: the state gets the default threshold
    75.0 and no influencers. *)
Definition analyze_product_standalone (product_info_dict : dict json) : api_outcome json :=
  match snd (invoke (workflow_app complete float_of)
               (mkMarketingWorkFlowState (Some product_info_dict) (Some []) None None None
                  None None None [] (PFin (inject_Z 75)))) with
  | Raise e => HTTPError 500 ("Error during product analysis: " ++ exn_msg e)%string
  | Ok final_state =>
      if existsb (str_contains "Product analysis") (error_messages final_state) then
        HTTPError 500 ("Product analysis failed: " ++ join "; " (error_messages final_state))%string
      else
        match product_tags final_state with
        | None => HTTPError 500 "Product analysis via LangGraph did not return valid tags."
        | Some product_tags_output =>
            match validate_product_tags product_tags_output with
            | Ok v => Success "Product analysis successful." v
            | Raise e => HTTPError 500 ("Error during product analysis: " ++ exn_msg e)%string
            end
        end
  end.

End Endpoints.

(** ** The email-intent endpoint *)

Lemma invalid_intent_msg_nonempty parsed : String.eqb (invalid_intent_msg parsed) "" = false.
Proof. unfold invalid_intent_msg. now destruct (json_truthy parsed). Qed.


(** [POST /api/outreachs/intent]: an empty body is answered with HTTP 500
    "Email intent analysis failed: Email body is empty." and no completion
    call.  Otherwise exactly one call is made.  If the completion chain
    raises, the intent node's except branch hits the unbound [traceback],
    and the client gets HTTP 500 with detail "Error during email intent
    analysis: name 'traceback' is not defined".  The endpoint succeeds
    exactly when the answer is a dict holding ["cooperation_intent"] that
    [EmailIntentOutput] accepts, and then returns the validated output. *)
Theorem email_intent_endpoint_outcomes (complete : Call -> result json)
    (validate : dict json -> result json) (subject : option string) (body : string) :
  (body = "" ->
     analyze_email_intent complete validate subject body
     = ([], HTTPError 500 "Email intent analysis failed: Email body is empty.")) /\
  (body <> "" ->
     let call := CallIntent (subject_or_na subject) body in
     fst (analyze_email_intent complete validate subject body) = [call] /\
     (forall e, complete call = Raise e ->
        snd (analyze_email_intent complete validate subject body)
        = HTTPError 500 "Error during email intent analysis: name 'traceback' is not defined") /\
     (forall m v, snd (analyze_email_intent complete validate subject body) = Success m v <->
        m = "Email intent analysis successful." /\
        exists fs, complete call = Ok (JObj fs) /\ dict_get "cooperation_intent" fs <> None /\
                   validate fs = Ok v)).
Proof.
  split.
  - intros ->. reflexivity.
  - intros Hb call. apply String.eqb_neq in Hb.
    unfold analyze_email_intent, intent_app_invoke, intent_analysis_node. cbn [ia_email_body ia_email_subject].
    rewrite Hb. fold call.
    split; [|split].
    + destruct (complete call) as [[| | | | |fs]|e]; try reflexivity.
      simpl. now destruct (dict_get "cooperation_intent" fs).
    + intros e He. rewrite He. reflexivity.
    + intros m v. destruct (complete call) as [[| | | | |fs]|e] eqn:Ec;
        cbn -[invalid_intent_msg]; rewrite ?invalid_intent_msg_nonempty; cbn -[invalid_intent_msg].
      7: split; [discriminate|intros (_ & fs & H & _); discriminate].
      1-5: split; [discriminate|intros (_ & fs' & H & _); discriminate].
      destruct (dict_get "cooperation_intent" fs) as [ci|] eqn:Eci;
        cbn -[invalid_intent_msg]; rewrite ?invalid_intent_msg_nonempty; cbn -[invalid_intent_msg].
      * destruct fs as [|f fs']; [discriminate|].
        destruct (validate (f :: fs')) as [w|e] eqn:Ev; simpl.
        -- split.
           ++ intros [= <- <-]. split; [reflexivity|]. exists (f :: fs'). now rewrite Eci, Ev.
           ++ intros (-> & fs & H & _ & Hv). injection H as <-.
              rewrite Ev in Hv. now inversion Hv.
        -- split; [discriminate|].
           intros (_ & fs & H & _ & Hv). injection H as <-.
           rewrite Ev in Hv. discriminate.
      * split; [discriminate|]. intros (_ & fs0 & H & Hk & _).
        injection H as <-. contradiction.
Qed.

(** ** The marketing endpoints *)


(* ================================================================== *)
(** * analyze_product_node on its declared state, ProductAnalysisState *)

Module ProductAnalysis.

Record ProductAnalysisState := mkProductAnalysisState {
  product_info : dict json;
  product_tags : option json;
  error_message : option string
}.

(** An exception of the product chain, with the attributes the except
    branch looks for: [e.llm_output] and [e.response.text]. *)
Record chain_exn := mkChainExn {
  ce_exn : exn;
  llm_output : option string;
  response_text : option string
}.

Inductive chain_result : Type :=
| ChainOk (parsed : json)
| ChainRaise (e : chain_exn).

(** [current_errors = state.error_message or []]: the field is an
    optional str, so this is either that str or an empty list. *)
Inductive py_errors : Type :=
| ErrStr (s : string)
| ErrList (l : list string).

Definition current_errors_of (error_message : option string) : py_errors :=
  match error_message with
  | Some s => if String.eqb s "" then ErrList [] else ErrStr s
  | None => ErrList []
  end.

(** [current_errors + [msg]] *)
Definition add_error (current_errors : py_errors) (msg : string) : result py_errors :=
  match current_errors with
  | ErrList l => Ok (ErrList (l ++ [msg]))
  | ErrStr _ => Raise (Exn "TypeError" "can only concatenate str (not 'list') to str")
  end.

(** The suffix the except branch appends from the exception's attributes. *)
Definition chain_exn_suffix (e : chain_exn) : string :=
  match llm_output e with
  | Some o => if negb (String.eqb o "") then (" LLM Output preview: " ++ substring 0 200 o)%string
              else match response_text e with
                   | Some t => (" LLM API Response: " ++ substring 0 200 t)%string
                   | None => ""
                   end
  | None => match response_text e with
            | Some t => (" LLM API Response: " ++ substring 0 200 t)%string
            | None => ""
            end
  end.

Section Node.
(** [chain.invoke({"product_data_json": ...})] on the product dict. *)
Variable product_chain : dict json -> chain_result.

(** [analyze_product_node]: the product dicts sent to the chain, and the
    returned [product_tags] and [error_messages], or the exception.  The
    product dict already holds JSON values, so the [json.dumps] and
    [json.loads] round trip leaves it as it is and cannot fail. *)
Definition analyze_product_node (state : ProductAnalysisState)
    : list (dict json) * result (option json * py_errors) :=
  let product_info_original := product_info state in
  let current_errors := current_errors_of (error_message state) in
  match product_info_original with
  | [] =>
      ([], match add_error current_errors
                   "Product analysis error: product_info is missing in state." with
           | Ok errs => Ok (None, errs)
           | Raise e => Raise e
           end)
  | _ =>
      let serializable_product_info_dict := product_info_original in
      match product_chain serializable_product_info_dict with
      | ChainOk parsed_tags => ([serializable_product_info_dict], Ok (Some parsed_tags, current_errors))
      | ChainRaise e =>
          let new_error_message :=
            ("Product analysis LLM/parsing exception: " ++ exn_msg (ce_exn e) ++ "."
             ++ chain_exn_suffix e)%string in
          ([serializable_product_info_dict],
           match add_error current_errors new_error_message with
           | Ok errs => Ok (None, errs)
           | Raise e' => Raise e'
           end)
      end
  end.
End Node.

Lemma string_app_assoc (a b c : string) : ((a ++ b) ++ c)%string = (a ++ b ++ c)%string.
Proof. induction a as [|x a IH]; simpl; [reflexivity|now rewrite IH]. Qed.

Lemma prefix_app (s t : string) : String.prefix s (s ++ t) = true.
Proof.
  induction s as [|a s IH]; simpl; [now destruct t|].
  destruct (Ascii.ascii_dec a a) as [_|n]; [exact IH|now destruct n].
Qed.


End ProductAnalysis.
